(** * view_audit_logs.py: the audit-log viewer, embedded and verified

    The viewer reads the session files of an audit directory
    ([session-*.jsonl], one JSON record per line), and prints a transcript
    of the five most recently modified sessions.

    The embedding follows the Python source function by function.  Python
    values that come out of [json.loads] are a datatype [json]; a Python
    [str] is a list of Unicode code points, so that [len] and slicing count
    characters as Python does; [print] appends to the standard-output
    component of an explicit output state; a raised exception is the
    [Raise] outcome of a computation.  The library calls [json.loads],
    [datetime.fromisoformat], [strftime], [repr] of a string and of a float
    are the fields of a class [Library], over which the program and its
    theorems are stated. *)

From Stdlib Require Import String Ascii DecimalString.
From Stdlib Require Import List Bool Arith ZArith NArith Lia.
From Stdlib Require Import Permutation Sorted.
From Stdlib Require Import Floats.SpecFloat.
Import ListNotations.

Set Implicit Arguments.

Open Scope string_scope.
Open Scope nat_scope.
Open Scope list_scope.
Set Warnings "-register-all".

(** ** Python strings *)

Module PyStr.

(** One character of a Python [str]: its Unicode code point. *)
Definition char := N.
Definition pystr := list char.

(** Decoding of the UTF-8 bytes of a Rocq string literal, so that the
    literals of the source can be written as they are. *)
Fixpoint utf8_decode (bs : list N) : pystr :=
  let cont b := N.land b 63 in
  match bs with
  | [] => []
  | b0 :: r0 =>
      if (b0 <? 128)%N then b0 :: utf8_decode r0
      else match r0 with
      | [] => []
      | b1 :: r1 =>
          if (b0 <? 224)%N then
            (N.land b0 31 * 64 + cont b1)%N :: utf8_decode r1
          else match r1 with
          | [] => []
          | b2 :: r2 =>
              if (b0 <? 240)%N then
                (N.land b0 15 * 4096 + cont b1 * 64 + cont b2)%N
                  :: utf8_decode r2
              else match r2 with
              | [] => []
              | b3 :: r3 =>
                  (N.land b0 7 * 262144 + cont b1 * 4096
                     + cont b2 * 64 + cont b3)%N :: utf8_decode r3
              end
          end
      end
  end.

Definition lit (s : string) : pystr :=
  utf8_decode (map N_of_ascii (list_ascii_of_string s)).

Fixpoint eqb (s t : pystr) : bool :=
  match s, t with
  | [], [] => true
  | a :: s', b :: t' => (a =? b)%N && eqb s' t'
  | _, _ => false
  end.

Lemma eqb_eq s t : eqb s t = true <-> s = t.
Proof.
  revert t. induction s as [|a s IH]; intros [|b t]; cbn [eqb];
    try (split; [discriminate | congruence]); try tauto.
  rewrite andb_true_iff, N.eqb_eq, IH. split.
  - intros [-> ->]. reflexivity.
  - intros H. inversion H. split; reflexivity.
Qed.

Lemma eqb_refl s : eqb s s = true.
Proof. now apply eqb_eq. Qed.

Lemma eqb_neq s t : eqb s t = false <-> s <> t.
Proof.
  rewrite <- eqb_eq. destruct (eqb s t); split; congruence.
Qed.

(** [str.isspace] on one character: the Unicode white space of CPython. *)
Definition isspace (c : char) : bool :=
  ((9 <=? c) && (c <=? 13) || (28 <=? c) && (c <=? 32)
   || (c =? 133) || (c =? 160) || (c =? 5760)
   || (8192 <=? c) && (c <=? 8202)
   || (c =? 8232) || (c =? 8233) || (c =? 8239) || (c =? 8287)
   || (c =? 12288))%N.

Fixpoint lstrip (s : pystr) : pystr :=
  match s with
  | [] => []
  | c :: s' => if isspace c then lstrip s' else s
  end.

(** [s.strip()] *)
Definition strip (s : pystr) : pystr := rev (lstrip (rev (lstrip s))).

(** Truth value of a string: non-empty. *)
Definition truthy (s : pystr) : bool :=
  match s with [] => false | _ => true end.

(** [s.replace(old, new)] for a one-character [old]: every occurrence. *)
Definition replace_char (old : char) (new : pystr) (s : pystr) : pystr :=
  flat_map (fun c => if (c =? old)%N then new else [c]) s.

(** [sep.join(parts)] *)
Fixpoint join (sep : pystr) (parts : list pystr) : pystr :=
  match parts with
  | [] => []
  | [p] => p
  | p :: rest => p ++ sep ++ join sep rest
  end.

Fixpoint startswith (p s : pystr) : bool :=
  match p, s with
  | [], _ => true
  | _ :: _, [] => false
  | a :: p', b :: s' => (a =? b)%N && startswith p' s'
  end.

Definition endswith (p s : pystr) : bool := startswith (rev p) (rev s).

(** [needle in s]: substring test. *)
Fixpoint contains (needle s : pystr) : bool :=
  startswith needle s
  || match s with [] => false | _ :: s' => contains needle s' end.

(** [str(n)] for a non-negative Python [int]. *)
Definition of_nat (n : nat) : pystr :=
  lit (NilZero.string_of_uint (Nat.to_uint n)).

(** [str(z)] for a Python [int]. *)
Definition of_Z (z : Z) : pystr :=
  lit (NilZero.string_of_int (Z.to_int z)).

End PyStr.

Import PyStr.

Example lit_clipboard : lit "📋 S" = [128203; 32; 83]%N.
Proof. reflexivity. Qed.

Example lit_check_cross : lit "✅❌" = [9989; 10060]%N.
Proof. reflexivity. Qed.

Example of_Z_neg : of_Z (-120) = lit "-120".
Proof. reflexivity. Qed.

Example strip_blank_line : strip (lit "  	" ++ [10]%N) = [].
Proof. reflexivity. Qed.

Example strip_keeps_inner : strip (lit "  a b " ++ [10]%N) = lit "a b".
Proof. reflexivity. Qed.

Example replace_zulu :
  replace_char 90%N (lit "+00:00") (lit "2024-01-15T10:30:00Z")
  = lit "2024-01-15T10:30:00+00:00".
Proof. reflexivity. Qed.

(** ** Values, exceptions and effects *)

(** What [json.loads] returns: [None], [bool], [int], [float], [str],
    [list], or a [dict] with string keys, kept in insertion order. *)
Inductive json : Type :=
| JNull
| JBool (b : bool)
| JInt (z : Z)
| JFloat (f : spec_float)
| JStr (s : pystr)
| JList (items : list json)
| JDict (fields : list (pystr * json)).

(** An exception raised inside a library call ([open], reading a line,
    [json.loads], [fromisoformat], [strftime]): an instance of a subclass of
    [Exception], of which the viewer only ever takes [str(e)]. *)
Record lib_exn : Type := LibExn { exn_str : pystr }.

(** The exceptions of the viewer's own operations, and the library's. *)
Inductive exn : Type :=
| KeyError (key : pystr)
| TypeError
| AttributeError
| LibraryError (e : lib_exn).

Inductive outcome (E A : Type) : Type :=
| Ok (a : A)
| Raise (e : E).

Arguments Ok {E A} a.
Arguments Raise {E A} e.

Definition result := outcome exn.

Definition from_library {A} (r : outcome lib_exn A) : result A :=
  match r with
  | Ok a => Ok a
  | Raise e => Raise (LibraryError e)
  end.

Definition bind_result {E A B} (r : outcome E A) (k : A -> outcome E B)
  : outcome E B :=
  match r with
  | Ok a => k a
  | Raise e => Raise e
  end.

(** [try: body / except: handler], with a handler that catches everything. *)
Definition try_except {E A} (body : outcome E A) (handler : E -> outcome E A)
  : outcome E A :=
  match body with
  | Ok a => Ok a
  | Raise e => handler e
  end.

(** The two output channels of the process; each entry is the text of one
    [print] call (the newline that [print] adds is left implicit). *)
Record output : Type := Output { stdout : list pystr; stderr : list pystr }.

Definition no_output : output := Output [] [].

(** A computation that prints and may raise. *)
Definition M (A : Type) : Type := output -> result A * output.

Definition ret {A} (a : A) : M A := fun o => (Ok a, o).

Definition raise {A} (e : exn) : M A := fun o => (Raise e, o).

Definition bind {A B} (m : M A) (k : A -> M B) : M B :=
  fun o =>
    match m o with
    | (Ok a, o') => k a o'
    | (Raise e, o') => (Raise e, o')
    end.

Definition lift {A} (r : result A) : M A := fun o => (r, o).

(** [print(s)]: to standard output. *)
Definition print (s : pystr) : M unit :=
  fun o => (Ok tt, Output (stdout o ++ [s]) (stderr o)).

Declare Scope py_scope.
Delimit Scope py_scope with py.
Notation "x <- m ;; k" := (bind m (fun x => k))
  (at level 61, m at next level, right associativity) : py_scope.
Notation "m ;; k" := (bind m (fun _ => k))
  (at level 61, right associativity) : py_scope.
Notation "x <~ r ;; k" := (bind_result r (fun x => k))
  (at level 61, r at next level, right associativity) : py_scope.
Open Scope py_scope.

(** [for x in xs: body(x)] *)
Fixpoint for_each {A} (xs : list A) (body : A -> M unit) : M unit :=
  match xs with
  | [] => ret tt
  | x :: xs' => body x ;; for_each xs' body
  end.

(** The library functions the viewer calls. *)
Class Library : Type := {
  (** [repr] of a [float] and of a [str] *)
  float_repr : spec_float -> pystr;
  str_repr : pystr -> pystr;
  (** [json.loads(line)] *)
  json_loads : pystr -> outcome lib_exn json;
  (** [datetime.fromisoformat(s)] and [dt.strftime('%Y-%m-%d %H:%M:%S')] *)
  datetime : Type;
  fromisoformat : pystr -> outcome lib_exn datetime;
  strftime_ymd_hms : datetime -> outcome lib_exn pystr
}.

(** ** The file system as the viewer sees it *)

(** What iterating over an open text file yields: lines (each with its line
    end), until the end of the file or until a read fails (an I/O error, a
    byte sequence that does not decode). *)
Inductive line_stream : Type :=
| EOF
| ReadError (e : lib_exn)
| Line (line : pystr) (rest : line_stream).

(** A [Path] of a directory entry: [str(p)], [p.name], [p.stat().st_mtime]
    (modification times in their order), and what [open(p, 'r')] gives. *)
Record session_file : Type := SessionFile {
  path : pystr;
  name : pystr;
  st_mtime : Z;
  open_file : outcome lib_exn line_stream
}.

(** A directory: [str] of its path, and its entries in enumeration order. *)
Record directory : Type := Directory {
  dir_path : pystr;
  entries : list session_file
}.

(** What [find_audit_directory] consults: the matches of the snap pattern
    [~/snap/code/*/.local/share/amazon-q-cli/audit], and the directory
    [$XDG_DATA_HOME/amazon-q-cli/audit] (default base [~/.local/share]),
    when it exists. *)
Record environment : Type := Environment {
  snap_matches : list directory;
  standard_dir : option directory
}.

Fixpoint lines_of (ls : list pystr) (tail : line_stream) : line_stream :=
  match ls with
  | [] => tail
  | l :: ls' => Line l (lines_of ls' tail)
  end.

(** ** Operations of Python on the values of [json.loads] *)

Section Viewer.

Context {L : Library}.

(** [repr(v)] *)
Fixpoint py_repr (v : json) : pystr :=
  match v with
  | JNull => lit "None"
  | JBool b => if b then lit "True" else lit "False"
  | JInt z => of_Z z
  | JFloat f => float_repr f
  | JStr s => str_repr s
  | JList items =>
      lit "[" ++ join (lit ", ") (map py_repr items) ++ lit "]"
  | JDict fields =>
      lit "{"
      ++ join (lit ", ")
           (map (fun kv => let '(k, x) := kv in
                           str_repr k ++ lit ": " ++ py_repr x) fields)
      ++ lit "}"
  end.

(** [str(v)], which is what an f-string field [{v}] inserts. *)
Definition py_str (v : json) : pystr :=
  match v with
  | JStr s => s
  | _ => py_repr v
  end.

(** [bool(v)] *)
Definition py_truthy (v : json) : bool :=
  match v with
  | JNull => false
  | JBool b => b
  | JInt z => negb (z =? 0)%Z
  | JFloat (S754_zero _) => false
  | JFloat _ => true
  | JStr s => truthy s
  | JList items => match items with [] => false | _ => true end
  | JDict fields => match fields with [] => false | _ => true end
  end.

(** [v == 'literal'] *)
Definition py_eq_str (v : json) (s : pystr) : bool :=
  match v with
  | JStr t => eqb t s
  | _ => false
  end.

Fixpoint lookup (key : pystr) (fields : list (pystr * json)) : option json :=
  match fields with
  | [] => None
  | (k, x) :: rest => if eqb k key then Some x else lookup key rest
  end.

(** [v['key']]: only a dict can be subscripted by a string. *)
Definition py_getitem (v : json) (key : pystr) : result json :=
  match v with
  | JDict fields =>
      match lookup key fields with
      | Some x => Ok x
      | None => Raise (KeyError key)
      end
  | _ => Raise TypeError
  end.

(** [v.get('key', default)]: only a dict has the method. *)
Definition py_get (v : json) (key : pystr) (default : json) : result json :=
  match v with
  | JDict fields =>
      match lookup key fields with
      | Some x => Ok x
      | None => Ok default
      end
  | _ => Raise AttributeError
  end.

(** ['key' in v]: a key of a dict, an element of a list, a substring of a
    string; the other values are not containers. *)
Definition py_contains (key : pystr) (v : json) : result bool :=
  match v with
  | JDict fields =>
      Ok (match lookup key fields with Some _ => true | None => false end)
  | JList items => Ok (existsb (fun x => py_eq_str x key) items)
  | JStr s => Ok (contains key s)
  | _ => Raise TypeError
  end.

(** [len(v)] *)
Definition py_len (v : json) : result nat :=
  match v with
  | JStr s => Ok (length s)
  | JList items => Ok (length items)
  | JDict fields => Ok (length fields)
  | _ => Raise TypeError
  end.

(** [v[:n]]: strings and lists are sliced; a dict takes no slice as a key
    (a [TypeError] up to Python 3.11, a [KeyError] of the slice after). *)
Definition py_slice_to (n : nat) (v : json) : result json :=
  match v with
  | JStr s => Ok (JStr (firstn n s))
  | JList items => Ok (JList (firstn n items))
  | _ => Raise TypeError
  end.

(** [v + 'literal'] *)
Definition py_add_str (v : json) (s : pystr) : result json :=
  match v with
  | JStr t => Ok (JStr (t ++ s))
  | _ => Raise TypeError
  end.

(** [v.replace('Z', '+00:00')]: a method of [str] only. *)
Definition py_replace_Z (v : json) : result pystr :=
  match v with
  | JStr s => Ok (replace_char 90%N (lit "+00:00") s)
  | _ => Raise AttributeError
  end.

Definition getitem (v : json) (key : string) : M json :=
  lift (py_getitem v (lit key)).

(** ** The viewer *)

(** [find_audit_directory] *)
Definition find_audit_directory (env : environment) : option directory :=
  match snap_matches env with
  | d :: _ => Some d
  | [] => standard_dir env
  end.

(** The body of the [for line in f] loop of [load_session_events], with the
    list [events] that it extends in place: the list is returned as it
    stands when the loop ends or an exception leaves it. *)
Fixpoint read_lines (f : line_stream) (events : list json)
  : outcome lib_exn unit * list json :=
  match f with
  | EOF => (Ok tt, events)
  | ReadError e => (Raise e, events)
  | Line line rest =>
      if truthy (strip line) then
        match json_loads line with
        | Ok event => read_lines rest (events ++ [event])
        | Raise e => (Raise e, events)
        end
      else read_lines rest events
  end.

(** The [try] block of [load_session_events]: how it ends, and [events]
    as it stands then. *)
Definition try_load (sf : session_file) : outcome lib_exn unit * list json :=
  match open_file sf with
  | Ok f => read_lines f []
  | Raise e => (Raise e, [])
  end.

(** The text that the [except] clause prints. *)
Definition error_line (sf : session_file) (e : lib_exn) : pystr :=
  lit "Error reading " ++ path sf ++ lit ": " ++ exn_str e.

(** [load_session_events] *)
Definition load_session_events (sf : session_file) : M (list json) :=
  let '(body, events) := try_load sf in
  match body with
  | Ok _ => ret events
  | Raise e => print (error_line sf e) ;; ret events
  end.

(** [format_timestamp]: the bare [except] catches whatever the body raises. *)
Definition format_timestamp (ts_str : json) : result json :=
  try_except
    (s <~ py_replace_Z ts_str ;;
     dt <~ from_library (fromisoformat s) ;;
     text <~ from_library (strftime_ymd_hms dt) ;;
     Ok (JStr text))
    (fun _ => Ok ts_str).

(** [print_tool_execution] *)
Definition print_tool_execution (event : json) : M unit :=
  data <- getitem event "data" ;;
  event_type <- getitem event "type" ;;
  if py_eq_str event_type (lit "tool_execute_start") then
    tool_name <- getitem data "tool_name" ;;
    print (lit "  🔧 Started: " ++ py_str tool_name) ;;
    present <- lift (py_contains (lit "mcp_server") data) ;;
    if present then
      server <- getitem data "mcp_server" ;;
      if py_truthy server then
        server' <- getitem data "mcp_server" ;;
        print (lit "      Server: " ++ py_str server')
      else ret tt
    else ret tt
  else
    event_type' <- getitem event "type" ;;
    if py_eq_str event_type' (lit "tool_execute_end") then
      status <- getitem data "status" ;;
      let emoji :=
        if py_eq_str status (lit "success") then lit "✅" else lit "❌" in
      print (lit "  " ++ emoji ++ lit " Finished: " ++ py_str status) ;;
      has_output <- lift (py_contains (lit "output") data) ;;
      (if has_output then
         output <- getitem data "output" ;;
         n <- lift (py_len output) ;;
         if (200 <? n)%nat then
           head <- lift (py_slice_to 200 output) ;;
           print (lit "      Output: " ++ py_str head ++ lit "...")
         else
           print (lit "      Output: " ++ py_str output)
       else ret tt) ;;
      has_duration <- lift (py_contains (lit "duration_ms") data) ;;
      if has_duration then
        duration <- getitem data "duration_ms" ;;
        print (lit "      Duration: " ++ py_str duration ++ lit "ms")
      else ret tt
    else ret tt.

(** The two counters of [analyze_session]. *)
Record counters : Type := Counters { tool_count : nat; mcp_tool_count : nat }.

(** One turn of the [for event in events] loop of [analyze_session]. *)
Definition analyze_event (event : json) (c : counters) : M counters :=
  ts_str <- getitem event "ts" ;;
  ts <- lift (format_timestamp ts_str) ;;
  event_type <- getitem event "type" ;;
  if py_eq_str event_type (lit "session_start") then
    data <- getitem event "data" ;;
    print (lit "  ⏰ Started: " ++ py_str ts) ;;
    model_id <- lift (py_get data (lit "model_id") (JStr (lit "Unknown"))) ;;
    print (lit "  🤖 Model: " ++ py_str model_id) ;;
    interactive <- lift (py_get data (lit "interactive") (JBool false)) ;;
    print (lit "  💬 Interactive: " ++ py_str interactive) ;;
    ret c
  else if py_eq_str event_type (lit "user_input") then
    data <- getitem event "data" ;;
    user_input <- getitem data "input" ;;
    n <- lift (py_len user_input) ;;
    user_input' <-
      (if (100 <? n)%nat then
         lift (head <~ py_slice_to 100 user_input ;;
               py_add_str head (lit "..."))
       else ret user_input) ;;
    print (lit "  👤 Input: " ++ py_str user_input') ;;
    ret c
  else if py_eq_str event_type (lit "tool_execute_start") then
    let tool_count' := tool_count c + 1 in
    data <- getitem event "data" ;;
    mcp_server <- lift (py_get data (lit "mcp_server") JNull) ;;
    let mcp_tool_count' :=
      if py_truthy mcp_server
      then mcp_tool_count c + 1 else mcp_tool_count c in
    print_tool_execution event ;;
    ret (Counters tool_count' mcp_tool_count')
  else if py_eq_str event_type (lit "tool_execute_end") then
    print_tool_execution event ;;
    ret c
  else if py_eq_str event_type (lit "session_end") then
    print (lit "  🔚 Ended: " ++ py_str ts) ;;
    ret c
  else ret c.

Fixpoint analyze_events (events : list json) (c : counters) : M counters :=
  match events with
  | [] => ret c
  | event :: rest => c' <- analyze_event event c ;; analyze_events rest c'
  end.

(** The line that ends a session's transcript. *)
Definition footer (c : counters) : pystr :=
  lit "  📊 Total tools: " ++ of_nat (tool_count c)
  ++ lit " (MCP: " ++ of_nat (mcp_tool_count c) ++ lit ")".

(** [analyze_session] *)
Definition analyze_session (sf : session_file) : M unit :=
  events <- load_session_events sf ;;
  match events with
  | [] => ret tt
  | first :: _ =>
      session_id <- getitem first "session_id" ;;
      print ([10%N] ++ lit "📋 Session: " ++ py_str session_id) ;;
      print (lit "📄 File: " ++ name sf) ;;
      c <- analyze_events events (Counters 0 0) ;;
      print (footer c)
  end.

(** [fnmatch] of a name against [session-*.jsonl]. *)
Definition matches_session_glob (file_name : pystr) : bool :=
  startswith (lit "session-") file_name
  && endswith (lit ".jsonl") file_name
  && (length (lit "session-") + length (lit ".jsonl")
      <=? length file_name)%nat.

(** [audit_dir.glob("session-*.jsonl")], in enumeration order. *)
Definition glob_session_files (d : directory) : list session_file :=
  filter (fun sf => matches_session_glob (name sf)) (entries d).

(** [files.sort(key=lambda x: x.stat().st_mtime, reverse=True)].  Python's
    sort is stable, also with [reverse=True]: files of equal modification
    time keep their order.  A stable sort has one result, computed here by
    insertion from the right. *)
Fixpoint insert_by_mtime (x : session_file) (sorted : list session_file)
  : list session_file :=
  match sorted with
  | [] => [x]
  | y :: rest =>
      if (st_mtime y <=? st_mtime x)%Z then x :: sorted
      else y :: insert_by_mtime x rest
  end.

Fixpoint sort_by_mtime_desc (files : list session_file)
  : list session_file :=
  match files with
  | [] => []
  | x :: rest => insert_by_mtime x (sort_by_mtime_desc rest)
  end.

(** The files that [main] passes to [analyze_session], in that order
    ([session_files[:5]] after the sort), and the ones it leaves aside. *)
Definition rendered_files (files : list session_file) : list session_file :=
  firstn 5 (sort_by_mtime_desc files).

Definition ignored_files (files : list session_file) : list session_file :=
  skipn 5 (sort_by_mtime_desc files).

(** [main] *)
Definition main (env : environment) : M unit :=
  match find_audit_directory env with
  | None => print (lit "❌ No audit directory found")
  | Some audit_dir =>
      print (lit "📁 Audit directory: " ++ dir_path audit_dir) ;;
      match glob_session_files audit_dir with
      | [] => print (lit "❌ No session files found")
      | session_files =>
          let session_files := sort_by_mtime_desc session_files in
          print (lit "📊 Found " ++ of_nat (length session_files)
                 ++ lit " session files") ;;
          for_each (firstn 5 session_files) analyze_session
      end
  end.

End Viewer.

(** ** Notions used in the statements *)

Section Notions.

Context {L : Library}.

(** The lines of a file that hold a record: the ones that are not blank. *)
Definition records (lines : list pystr) : list pystr :=
  filter (fun line => truthy (strip line)) lines.

(** A line that [json.loads] accepts. *)
Definition well_formed (line : pystr) : Prop :=
  exists event, json_loads line = Ok event.

(** [events] are the values of the [lines], one for one and in order. *)
Definition parsed_from (lines : list pystr) (events : list json) : Prop :=
  Forall2 (fun line event => json_loads line = Ok event) lines events.

(** A member of a JSON object. *)
Definition field (key : string) (v : json) : option json :=
  match v with
  | JDict fields => lookup (lit key) fields
  | _ => None
  end.

Definition has_field (key : string) (v : json) : bool :=
  match field key v with Some _ => true | None => false end.

Definition is_object (v : option json) : bool :=
  match v with Some (JDict _) => true | _ => false end.

(** A value of [data.input] that the [user_input] branch prints: a string,
    or a list or object that is not truncated. *)
Definition input_ok (v : json) : bool :=
  match v with
  | JStr _ => true
  | JList items => length items <=? 100
  | JDict fields => length fields <=? 100
  | _ => false
  end.

(** A value of [data.output] that [print_tool_execution] prints. *)
Definition output_ok (v : json) : bool :=
  match v with
  | JStr _ | JList _ => true
  | JDict fields => length fields <=? 200
  | _ => false
  end.

(** The members of [data] that the branch of an event type reads. *)
Definition data_ok (event_type : json) (data : option json) : bool :=
  if py_eq_str event_type (lit "session_start") then is_object data
  else if py_eq_str event_type (lit "user_input") then
    match data with
    | Some (JDict d) =>
        match lookup (lit "input") d with
        | Some v => input_ok v
        | None => false
        end
    | _ => false
    end
  else if py_eq_str event_type (lit "tool_execute_start") then
    match data with
    | Some (JDict d) =>
        match lookup (lit "tool_name") d with
        | Some _ => true
        | None => false
        end
    | _ => false
    end
  else if py_eq_str event_type (lit "tool_execute_end") then
    match data with
    | Some (JDict d) =>
        match lookup (lit "status") d, lookup (lit "output") d with
        | Some _, Some v => output_ok v
        | Some _, None => true
        | None, _ => false
        end
    | _ => false
    end
  else true.

(** An event that has what the renderer reads: an object with [ts], [type]
    and the members of [data] that its type calls for. *)
Definition event_ok (event : json) : bool :=
  match field "ts" event, field "type" event with
  | Some _, Some event_type => data_ok event_type (field "data" event)
  | _, _ => false
  end.

(** The events of one file: all of them as above, the first one with a
    [session_id]. *)
Definition session_ok (events : list json) : bool :=
  match events with
  | [] => true
  | first :: _ => has_field "session_id" first && forallb event_ok events
  end.

Definition is_tool_start (event : json) : bool :=
  match field "type" event with
  | Some event_type => py_eq_str event_type (lit "tool_execute_start")
  | None => false
  end.

(** The event's [data] has a member [mcp_server]. *)
Definition carries_mcp_field (event : json) : bool :=
  match field "data" event with
  | Some data => has_field "mcp_server" data
  | None => false
  end.

(** The event's [data] has a member [mcp_server] that is true as a
    condition: neither [null] nor the empty string. *)
Definition names_mcp_server (event : json) : bool :=
  match field "data" event with
  | Some data =>
      match field "mcp_server" data with
      | Some server => py_truthy server
      | None => false
      end
  | None => false
  end.

Definition count (p : json -> bool) (events : list json) : nat :=
  length (filter p events).

Definition count_tool_starts : list json -> nat := count is_tool_start.

Definition count_mcp_starts : list json -> nat :=
  count (fun event => is_tool_start event && names_mcp_server event).

Definition count_mcp_fields : list json -> nat :=
  count (fun event => is_tool_start event && carries_mcp_field event).

(** What one loop turn adds to the counters. *)
Definition tool_increment (event : json) : nat :=
  if is_tool_start event then 1 else 0.

Definition mcp_increment (event : json) : nat :=
  if is_tool_start event && names_mcp_server event then 1 else 0.

(** The error line of a file, when its [try] block raised. *)
Definition error_lines (sf : session_file) : list pystr :=
  match fst (try_load sf) with
  | Ok _ => []
  | Raise e => [error_line sf e]
  end.

(** A computation that returns [a] after printing [lines] to standard
    output, and nothing to standard error. *)
Definition runs {A} (m : M A) (o : output) (a : A) (lines : list pystr)
  : Prop :=
  m o = (Ok a, Output (stdout o ++ lines) (stderr o)).


(** The five known event types. *)
Definition known_types : list pystr :=
  [lit "session_start"; lit "session_end"; lit "user_input";
   lit "tool_execute_start"; lit "tool_execute_end"].

End Notions.

(** ** A sample library and sample session files

    The library functions at the texts that occur in the sample files, as
    CPython computes them there; the samples are the concrete inputs at
    which the theorems below are instantiated. *)

Module Sample.

(** A literal in which an apostrophe stands for the double quote of JSON. *)
Definition jlit (s : string) : pystr :=
  map (fun c => if (c =? 39)%N then 34%N else c) (lit s).

(** A line of a text file: its text and the line end. *)
Definition jline (s : string) : pystr := jlit s ++ [10%N].

Definition obj (fields : list (string * json)) : json :=
  JDict (map (fun kv => (lit (fst kv), snd kv)) fields).

Definition str (s : string) : json := JStr (lit s).

Definition line_start : pystr :=
  jline "{'ts': '2024-01-15T10:30:00Z', 'type': 'session_start', 'session_id': 's-1', 'data': {'model_id': 'm1', 'interactive': true}}".

Definition event_start : json :=
  obj [("ts", str "2024-01-15T10:30:00Z"); ("type", str "session_start");
       ("session_id", str "s-1");
       ("data", obj [("model_id", str "m1"); ("interactive", JBool true)])].

Definition line_input : pystr :=
  jline "{'ts': '2024-01-15T10:30:05Z', 'type': 'user_input', 'session_id': 's-1', 'data': {'input': 'list the files'}}".

Definition event_input : json :=
  obj [("ts", str "2024-01-15T10:30:05Z"); ("type", str "user_input");
       ("session_id", str "s-1");
       ("data", obj [("input", str "list the files")])].

Definition line_tool_builtin : pystr :=
  jline "{'ts': '2024-01-15T10:30:06Z', 'type': 'tool_execute_start', 'session_id': 's-1', 'data': {'tool_name': 'fs_read'}}".

Definition event_tool_builtin : json :=
  obj [("ts", str "2024-01-15T10:30:06Z"); ("type", str "tool_execute_start");
       ("session_id", str "s-1");
       ("data", obj [("tool_name", str "fs_read")])].

Definition line_tool_mcp : pystr :=
  jline "{'ts': '2024-01-15T10:30:07Z', 'type': 'tool_execute_start', 'session_id': 's-1', 'data': {'tool_name': 'search', 'mcp_server': 'docs'}}".

Definition event_tool_mcp : json :=
  obj [("ts", str "2024-01-15T10:30:07Z"); ("type", str "tool_execute_start");
       ("session_id", str "s-1");
       ("data", obj [("tool_name", str "search"); ("mcp_server", str "docs")])].

Definition line_tool_null_server : pystr :=
  jline "{'ts': '2024-01-15T10:30:08Z', 'type': 'tool_execute_start', 'session_id': 's-1', 'data': {'tool_name': 'grep', 'mcp_server': null}}".

Definition event_tool_null_server : json :=
  obj [("ts", str "2024-01-15T10:30:08Z"); ("type", str "tool_execute_start");
       ("session_id", str "s-1");
       ("data", obj [("tool_name", str "grep"); ("mcp_server", JNull)])].

Definition line_tool_end : pystr :=
  jline "{'ts': '2024-01-15T10:30:09Z', 'type': 'tool_execute_end', 'session_id': 's-1', 'data': {'status': 'success', 'output': 'ok', 'duration_ms': 12}}".

Definition event_tool_end : json :=
  obj [("ts", str "2024-01-15T10:30:09Z"); ("type", str "tool_execute_end");
       ("session_id", str "s-1");
       ("data", obj [("status", str "success"); ("output", str "ok");
                     ("duration_ms", JInt 12)])].

Definition line_end : pystr :=
  jline "{'ts': '2024-01-15T10:31:00+00:00', 'type': 'session_end', 'session_id': 's-1', 'data': {}}".

Definition event_end : json :=
  obj [("ts", str "2024-01-15T10:31:00+00:00"); ("type", str "session_end");
       ("session_id", str "s-1"); ("data", obj [])].

Definition line_heartbeat : pystr :=
  jline "{'ts': 'soon', 'type': 'heartbeat', 'session_id': 's-1'}".

Definition event_heartbeat : json :=
  obj [("ts", str "soon"); ("type", str "heartbeat");
       ("session_id", str "s-1")].

(** A [user_input] event with the text [x] repeated [n] times. *)
Definition input_of_length (n : nat) : json :=
  obj [("ts", str "2024-01-15T10:30:05Z"); ("type", str "user_input");
       ("session_id", str "s-1");
       ("data", JDict [(lit "input", JStr (repeat 120%N n))])].

Definition line_empty_object : pystr := jline "{}".

Definition line_malformed : pystr := jline "not json".

Definition line_blank : pystr := lit "   " ++ [10%N].

Definition expecting_value : lib_exn :=
  LibExn (lit "Expecting value: line 1 column 1 (char 0)").

(** [json.loads] on the sample lines. *)
Definition json_table : list (pystr * outcome lib_exn json) :=
  [ (line_start, Ok event_start);
    (line_input, Ok event_input);
    (line_tool_builtin, Ok event_tool_builtin);
    (line_tool_mcp, Ok event_tool_mcp);
    (line_tool_null_server, Ok event_tool_null_server);
    (line_tool_end, Ok event_tool_end);
    (line_end, Ok event_end);
    (line_heartbeat, Ok event_heartbeat);
    (line_empty_object, Ok (JDict []));
    (line_malformed, Raise expecting_value) ].

Fixpoint table_lookup {A} (key : pystr) (table : list (pystr * A))
  : option A :=
  match table with
  | [] => None
  | (k, a) :: rest => if eqb k key then Some a else table_lookup key rest
  end.

Definition sample_json_loads (line : pystr) : outcome lib_exn json :=
  match table_lookup line json_table with
  | Some r => r
  | None => Raise expecting_value
  end.

(** The fields of a [datetime] that the format string prints. *)
Record date_time : Type := DateTime {
  year : nat; month : nat; day : nat;
  hour : nat; minute : nat; second : nat
}.

(** [datetime.fromisoformat] on the time stamps of the samples, after the
    replacement of [Z]. *)
Definition datetime_table : list (pystr * date_time) :=
  [ (lit "2024-01-15T10:30:00+00:00", DateTime 2024 1 15 10 30 0);
    (lit "2024-01-15T10:30:05+00:00", DateTime 2024 1 15 10 30 5);
    (lit "2024-01-15T10:30:06+00:00", DateTime 2024 1 15 10 30 6);
    (lit "2024-01-15T10:30:07+00:00", DateTime 2024 1 15 10 30 7);
    (lit "2024-01-15T10:30:08+00:00", DateTime 2024 1 15 10 30 8);
    (lit "2024-01-15T10:30:09+00:00", DateTime 2024 1 15 10 30 9);
    (lit "2024-01-15T10:31:00+00:00", DateTime 2024 1 15 10 31 0) ].

Definition sample_fromisoformat (s : pystr) : outcome lib_exn date_time :=
  match table_lookup s datetime_table with
  | Some dt => Ok dt
  | None =>
      Raise (LibExn (lit "Invalid isoformat string: " ++ lit "'" ++ s
                     ++ lit "'"))
  end.

Definition pad (width n : nat) : pystr :=
  let digits := of_nat n in
  repeat 48%N (width - length digits) ++ digits.

(** [strftime('%Y-%m-%d %H:%M:%S')] *)
Definition sample_strftime (dt : date_time) : outcome lib_exn pystr :=
  Ok (pad 4 (year dt) ++ lit "-" ++ pad 2 (month dt) ++ lit "-"
      ++ pad 2 (day dt) ++ lit " " ++ pad 2 (hour dt) ++ lit ":"
      ++ pad 2 (minute dt) ++ lit ":" ++ pad 2 (second dt)).

(** [repr] of the floats that have no digits; the samples hold no other. *)
Definition sample_float_repr (f : spec_float) : pystr :=
  match f with
  | S754_zero false => lit "0.0"
  | S754_zero true => lit "-0.0"
  | S754_infinity false => lit "inf"
  | S754_infinity true => lit "-inf"
  | S754_nan => lit "nan"
  | S754_finite _ _ _ => []
  end.

(** [repr] of a string of printable characters without quote or backslash,
    as the strings of the samples are. *)
Definition sample_str_repr (s : pystr) : pystr := lit "'" ++ s ++ lit "'".

Definition library : Library := {|
  float_repr := sample_float_repr;
  str_repr := sample_str_repr;
  json_loads := sample_json_loads;
  datetime := date_time;
  fromisoformat := sample_fromisoformat;
  strftime_ymd_hms := sample_strftime
|}.

Definition audit_path : pystr := lit "/home/dev/.local/share/amazon-q-cli/audit".

Definition file (file_name : string) (mtime : Z)
  (content : outcome lib_exn line_stream) : session_file :=
  SessionFile (audit_path ++ lit "/" ++ lit file_name) (lit file_name)
    mtime content.

(** A complete session: three tool starts, one of them through an MCP
    server, one with a null server. *)
Definition session_complete : session_file :=
  file "session-complete.jsonl" 1700000700
    (Ok (lines_of [line_start; line_input; line_tool_builtin; line_tool_end;
                   line_tool_mcp; line_blank; line_tool_null_server;
                   line_heartbeat; line_end] EOF)).

(** A session cut by a malformed line, the third of its records. *)
Definition session_cut : session_file :=
  file "session-cut.jsonl" 1700000600
    (Ok (lines_of [line_start; line_blank; line_input; line_malformed;
                   line_end] EOF)).

(** A file that cannot be opened. *)
Definition session_locked : session_file :=
  file "session-locked.jsonl" 1700000500
    (Raise (LibExn (lit "[Errno 13] Permission denied: '"
                    ++ audit_path ++ lit "/session-locked.jsonl'"))).

(** A file whose only record is the empty object. *)
Definition session_hollow : session_file :=
  file "session-hollow.jsonl" 1700000400
    (Ok (lines_of [line_empty_object] EOF)).

Definition session_short (file_name : string) (mtime : Z) : session_file :=
  file file_name mtime (Ok (lines_of [line_start; line_end] EOF)).

(** Seven session files and one file of another name, in the order in
    which the directory lists them. *)
Definition seven_sessions : list session_file :=
  [ session_short "session-c.jsonl" 1700000300;
    session_complete;
    session_short "session-a.jsonl" 1700000100;
    session_locked;
    session_cut;
    session_short "session-b.jsonl" 1700000200;
    session_short "session-d.jsonl" 1700000450 ].

Definition audit_directory : directory :=
  Directory audit_path
    (session_short "notes.txt" 1700000900 :: seven_sessions).



End Sample.

Example sample_line_text :
  Sample.line_empty_object = [123; 125; 10]%N
  /\ Sample.jlit "'a'" = [34; 97; 34]%N.
Proof. split; reflexivity. Qed.

(** ** Further notions *)

Section FurtherNotions.

Context {L : Library}.

(** The candidates of [find_audit_directory] in their order of priority:
    the matches of the snap pattern, then the standard directory. *)
Definition candidate_directories (env : environment) : list directory :=
  snap_matches env
  ++ match standard_dir env with
     | Some d => [d]
     | None => []
     end.

(** A line made of white space only. *)
Definition blank (line : pystr) : Prop :=
  Forall (fun c => isspace c = true) line.

(** A computation whose outcome and printed lines do not depend on what
    was printed before, and which prints to standard output only. *)
Definition uniform {A} (m : M A) : Prop :=
  exists (r : result A) (lines : list pystr),
    forall o : output, m o = (r, Output (stdout o ++ lines) (stderr o)).

(** What [analyze_session] prints for a file, and how it ends. *)
Definition transcript (sf : session_file) : list pystr :=
  stdout (snd (analyze_session sf no_output)).

Definition ending (sf : session_file) : result unit :=
  fst (analyze_session sf no_output).

(** A computation that raises [e] after printing [lines]. *)
Definition raises {A} (m : M A) (o : output) (e : exn)
  (lines : list pystr) : Prop :=
  m o = (Raise e, Output (stdout o ++ lines) (stderr o)).

(** The lines of a [tool_execute_end] event. *)
Definition finished_line (status : json) : pystr :=
  lit "  "
  ++ (if py_eq_str status (lit "success") then lit "✅" else lit "❌")
  ++ lit " Finished: " ++ py_str status.

Definition output_lines (output : option pystr) : list pystr :=
  match output with
  | None => []
  | Some text =>
      [lit "      Output: "
       ++ (if length text <=? 200 then text
           else firstn 200 text ++ lit "...")]
  end.

Definition duration_lines (duration : option json) : list pystr :=
  match duration with
  | None => []
  | Some d => [lit "      Duration: " ++ py_str d ++ lit "ms"]
  end.

(** The value of [data.get(key, default)] for the members [fields]. *)
Definition member_or (key : string) (default : json)
  (fields : list (pystr * json)) : json :=
  match lookup (lit key) fields with
  | Some v => v
  | None => default
  end.

(** The line that names the MCP server of a [tool_execute_start] event,
    when its data names one. *)
Definition server_lines (fields : list (pystr * json)) : list pystr :=
  if py_truthy (member_or "mcp_server" JNull fields)
  then [lit "      Server: " ++ py_str (member_or "mcp_server" JNull fields)]
  else [].

(** The two lines that open the transcript of a session. *)
Definition header_lines (sf : session_file) (session_id : json)
  : list pystr :=
  [[10%N] ++ lit "📋 Session: " ++ py_str session_id;
   lit "📄 File: " ++ name sf].

End FurtherNotions.

Module MoreSamples.

Import Sample.

(** No audit directory at all. *)
Definition environment_bare : environment := Environment [] None.

(** An audit directory without a session file. *)
Definition notes_directory : directory :=
  Directory audit_path [session_short "notes.txt" 1700000900;
                        session_short "session-1.json" 1700000901].

Definition environment_notes : environment :=
  Environment [] (Some notes_directory).

(** A snap directory and a standard one. *)
Definition snap_directory : directory :=
  Directory (lit "/home/dev/snap/code/174/.local/share/amazon-q-cli/audit")
    [session_hollow].

Definition environment_snap : environment :=
  Environment [snap_directory] (Some audit_directory).

(** A file of blank lines. *)
Definition session_blank : session_file :=
  file "session-blank.jsonl" 1700000350
    (Ok (lines_of [line_blank; [10%N]; lit "	 "] EOF)).



(** Two files of the same modification time between two others. *)
Definition tied_sessions : list session_file :=
  [ session_short "session-old.jsonl" 1700000100;
    session_short "session-tie-1.jsonl" 1700000200;
    session_short "session-new.jsonl" 1700000300;
    session_short "session-tie-2.jsonl" 1700000200 ].

(** A [tool_execute_end] event with an output of [n] characters. *)
Definition end_with_output (n : nat) : json :=
  obj [("ts", str "2024-01-15T10:30:09Z"); ("type", str "tool_execute_end");
       ("session_id", str "s-1");
       ("data", JDict [(lit "status", str "failed");
                       (lit "output", JStr (repeat 120%N n))])].

(** A session start without the optional members. *)
Definition event_start_bare : json :=
  obj [("ts", str "2024-01-15T10:30:00Z"); ("type", str "session_start");
       ("session_id", str "s-1"); ("data", obj [("model_id", JNull)])].

(** A session end with a time stamp that is no date. *)
Definition event_end_soon : json :=
  obj [("ts", str "soon"); ("type", str "session_end")].

(** A user input that is a list of [n] numbers. *)
Definition input_list (n : nat) : json :=
  obj [("ts", str "2024-01-15T10:30:05Z"); ("type", str "user_input");
       ("data", JDict [(lit "input", JList (repeat (JInt 0) n))])].

End MoreSamples.

(** ** The process: standard output and [stat]

    Above, [print] hands a text to standard output and a file comes with
    its modification time.  In the process, [print] encodes the text for
    standard output and raises [UnicodeEncodeError] when the encoding has
    no code for one of its characters (a lone surrogate, which [json.loads]
    accepts, in UTF-8), and [x.stat()] in the sort key raises [OSError]
    for an entry that cannot be examined (a link that leads nowhere).
    Neither call is inside a [try] block.  The module [Io] is the viewer
    with these two failures. *)

Class System : Type := {
  (** standard output can encode the text *)
  encodes : pystr -> bool;
  (** the [UnicodeEncodeError] that [print] raises when it cannot *)
  encode_error : pystr -> lib_exn;
  (** the exception of [x.stat()], when it raises one *)
  stat_error : session_file -> option lib_exn
}.

Module Io.

Section Process.

Context {L : Library} {S : System}.

(** [print(s)]: nothing of a text that cannot be encoded is written. *)
Definition print (s : pystr) : M unit :=
  fun o =>
    if encodes s then print s o
    else (Raise (LibraryError (encode_error s)), o).

(** [load_session_events] *)
Definition load_session_events (sf : session_file) : M (list json) :=
  let '(body, events) := try_load sf in
  match body with
  | Ok _ => ret events
  | Raise e => print (error_line sf e) ;; ret events
  end.

(** [print_tool_execution] *)
Definition print_tool_execution (event : json) : M unit :=
  data <- getitem event "data" ;;
  event_type <- getitem event "type" ;;
  if py_eq_str event_type (lit "tool_execute_start") then
    tool_name <- getitem data "tool_name" ;;
    print (lit "  🔧 Started: " ++ py_str tool_name) ;;
    present <- lift (py_contains (lit "mcp_server") data) ;;
    if present then
      server <- getitem data "mcp_server" ;;
      if py_truthy server then
        server' <- getitem data "mcp_server" ;;
        print (lit "      Server: " ++ py_str server')
      else ret tt
    else ret tt
  else
    event_type' <- getitem event "type" ;;
    if py_eq_str event_type' (lit "tool_execute_end") then
      status <- getitem data "status" ;;
      let emoji :=
        if py_eq_str status (lit "success") then lit "✅" else lit "❌" in
      print (lit "  " ++ emoji ++ lit " Finished: " ++ py_str status) ;;
      has_output <- lift (py_contains (lit "output") data) ;;
      (if has_output then
         output <- getitem data "output" ;;
         n <- lift (py_len output) ;;
         if (200 <? n)%nat then
           head <- lift (py_slice_to 200 output) ;;
           print (lit "      Output: " ++ py_str head ++ lit "...")
         else
           print (lit "      Output: " ++ py_str output)
       else ret tt) ;;
      has_duration <- lift (py_contains (lit "duration_ms") data) ;;
      if has_duration then
        duration <- getitem data "duration_ms" ;;
        print (lit "      Duration: " ++ py_str duration ++ lit "ms")
      else ret tt
    else ret tt.

(** One turn of the [for event in events] loop of [analyze_session]. *)
Definition analyze_event (event : json) (c : counters) : M counters :=
  ts_str <- getitem event "ts" ;;
  ts <- lift (format_timestamp ts_str) ;;
  event_type <- getitem event "type" ;;
  if py_eq_str event_type (lit "session_start") then
    data <- getitem event "data" ;;
    print (lit "  ⏰ Started: " ++ py_str ts) ;;
    model_id <- lift (py_get data (lit "model_id") (JStr (lit "Unknown"))) ;;
    print (lit "  🤖 Model: " ++ py_str model_id) ;;
    interactive <- lift (py_get data (lit "interactive") (JBool false)) ;;
    print (lit "  💬 Interactive: " ++ py_str interactive) ;;
    ret c
  else if py_eq_str event_type (lit "user_input") then
    data <- getitem event "data" ;;
    user_input <- getitem data "input" ;;
    n <- lift (py_len user_input) ;;
    user_input' <-
      (if (100 <? n)%nat then
         lift (head <~ py_slice_to 100 user_input ;;
               py_add_str head (lit "..."))
       else ret user_input) ;;
    print (lit "  👤 Input: " ++ py_str user_input') ;;
    ret c
  else if py_eq_str event_type (lit "tool_execute_start") then
    let tool_count' := tool_count c + 1 in
    data <- getitem event "data" ;;
    mcp_server <- lift (py_get data (lit "mcp_server") JNull) ;;
    let mcp_tool_count' :=
      if py_truthy mcp_server
      then mcp_tool_count c + 1 else mcp_tool_count c in
    print_tool_execution event ;;
    ret (Counters tool_count' mcp_tool_count')
  else if py_eq_str event_type (lit "tool_execute_end") then
    print_tool_execution event ;;
    ret c
  else if py_eq_str event_type (lit "session_end") then
    print (lit "  🔚 Ended: " ++ py_str ts) ;;
    ret c
  else ret c.

Fixpoint analyze_events (events : list json) (c : counters) : M counters :=
  match events with
  | [] => ret c
  | event :: rest => c' <- analyze_event event c ;; analyze_events rest c'
  end.

(** [analyze_session] *)
Definition analyze_session (sf : session_file) : M unit :=
  events <- load_session_events sf ;;
  match events with
  | [] => ret tt
  | first :: _ =>
      session_id <- getitem first "session_id" ;;
      print ([10%N] ++ lit "📋 Session: " ++ py_str session_id) ;;
      print (lit "📄 File: " ++ name sf) ;;
      c <- analyze_events events (Counters 0 0) ;;
      print (footer c)
  end.

(** The keys of the sort: [list.sort] calls [x.stat()] on every file, in
    the order of the list, before it moves any; the first call that
    raises ends the sort with its exception. *)
Fixpoint sort_keys (files : list session_file) : result unit :=
  match files with
  | [] => Ok tt
  | x :: rest =>
      match stat_error x with
      | Some e => Raise (LibraryError e)
      | None => sort_keys rest
      end
  end.

(** [main] *)
Definition main (env : environment) : M unit :=
  match find_audit_directory env with
  | None => print (lit "❌ No audit directory found")
  | Some audit_dir =>
      print (lit "📁 Audit directory: " ++ dir_path audit_dir) ;;
      match glob_session_files audit_dir with
      | [] => print (lit "❌ No session files found")
      | session_files =>
          lift (sort_keys session_files) ;;
          let session_files := sort_by_mtime_desc session_files in
          print (lit "📊 Found " ++ of_nat (length session_files)
                 ++ lit " session files") ;;
          for_each (firstn 5 session_files) analyze_session
      end
  end.

End Process.

End Io.

Section Terminal.

Context {L : Library} {S : System}.

(** The lines that standard output takes, up to the first that it cannot
    encode, and that first line. *)
Fixpoint accepted (lines : list pystr) : list pystr :=
  match lines with
  | [] => []
  | s :: rest => if encodes s then s :: accepted rest else []
  end.

Fixpoint refused (lines : list pystr) : option pystr :=
  match lines with
  | [] => None
  | s :: rest => if encodes s then refused rest else Some s
  end.

(** How a computation that hands [lines] to [print] and ends in [r] ends
    in the process. *)
Definition on_terminal {A} (r : result A) (lines : list pystr) : result A :=
  match refused lines with
  | None => r
  | Some s => Raise (LibraryError (encode_error s))
  end.

(** [m'] does in the process what [m] does above: it prints the lines of
    [m] up to the first that cannot be encoded, where it raises. *)
Definition simulates {A} (m' m : M A) : Prop :=
  exists (r : result A) (lines : list pystr),
    (forall o, m o = (r, Output (stdout o ++ lines) (stderr o)))
    /\ (forall o, m' o = (on_terminal r lines,
                          Output (stdout o ++ accepted lines) (stderr o))).

(** The texts that a run hands to [print]. *)
Definition printed_texts (env : environment) : list pystr :=
  stdout (snd (main env no_output)).

(** The texts that one turn of the event loop hands to [print]. *)
Definition turn_texts (event : json) (c : counters) : list pystr :=
  stdout (snd (analyze_event event c no_output)).

(** Every text of the list can be encoded. *)
Definition encodable (lines : list pystr) : Prop :=
  Forall (fun s => encodes s = true) lines.

End Terminal.

Module SampleSystem.

Import Sample.

(** UTF-8 has no code for the surrogates U+D800 to U+DFFF. *)
Definition utf8_encodes (s : pystr) : bool :=
  forallb (fun c => (c <? 55296)%N || (57343 <? c)%N) s.

(** A user input that ends in a lone surrogate, as [json.loads] returns
    for the JSON text ["\ud83d"]. *)
Definition event_lone_surrogate : json :=
  obj [("ts", str "2024-01-15T10:30:05Z"); ("type", str "user_input");
       ("session_id", str "s-1");
       ("data", JDict [(lit "input", JStr [55357%N])])].

(** The first surrogate of a text and its position. *)
Fixpoint first_surrogate (s : pystr) (position : nat) : option (nat * N) :=
  match s with
  | [] => None
  | c :: rest =>
      if (c <? 55296)%N || (57343 <? c)%N
      then first_surrogate rest (position + 1)
      else Some (position, c)
  end.

Definition hex_digit (d : N) : pystr :=
  firstn 1 (skipn (N.to_nat d) (lit "0123456789abcdef")).

Definition hex4 (c : N) : pystr :=
  hex_digit (c / 4096) ++ hex_digit (c / 256 mod 16)
  ++ hex_digit (c / 16 mod 16) ++ hex_digit (c mod 16).

(** [str(e)] of the [UnicodeEncodeError] at a text with one surrogate. *)
Definition utf8_encode_error (s : pystr) : lib_exn :=
  match first_surrogate s 0 with
  | Some (position, c) =>
      LibExn (lit "'utf-8' codec can't encode character '\u" ++ hex4 c
              ++ lit "' in position " ++ of_nat position
              ++ lit ": surrogates not allowed")
  | None => LibExn []
  end.

(** The error of [print] at the line of that event. *)
Definition surrogate_error : lib_exn :=
  LibExn (lit "'utf-8' codec can't encode character '\ud83d' in position 11: surrogates not allowed").

(** A session file whose name holds a byte that is no UTF-8, which Python
    keeps as the surrogate U+DCFF. *)
Definition session_odd_name : session_file :=
  SessionFile
    (audit_path ++ lit "/session-" ++ [56575%N] ++ lit ".jsonl")
    (lit "session-" ++ [56575%N] ++ lit ".jsonl")
    1700000800
    (Ok (lines_of [line_start; line_end] EOF)).

Definition environment_odd_name : environment :=
  Environment [] (Some (Directory audit_path [session_odd_name])).

(** A link named like a session file that leads nowhere. *)
Definition session_gone : session_file :=
  file "session-gone.jsonl" 0
    (Raise (LibExn (lit "[Errno 2] No such file or directory: '"
                    ++ audit_path ++ lit "/session-gone.jsonl'"))).

Definition gone_error : lib_exn :=
  LibExn (lit "[Errno 2] No such file or directory: '"
          ++ audit_path ++ lit "/session-gone.jsonl'").

Definition system : System := {|
  encodes := utf8_encodes;
  encode_error := utf8_encode_error;
  stat_error := fun sf =>
    if eqb (name sf) (lit "session-gone.jsonl") then Some gone_error
    else None
|}.

Definition environment_gone : environment :=
  Environment []
    (Some (Directory audit_path [session_complete; session_gone])).

End SampleSystem.

(** * Properties *)

Section Loader.

Context {L : Library}.


Lemma records_forall_cons (P : pystr -> Prop) line lines :
  Forall P (records (line :: lines)) ->
  (truthy (strip line) = true -> P line) /\ Forall P (records lines).
Proof.
  unfold records. simpl. destruct (truthy (strip line)); intros H.
  - inversion H; subst. split; auto.
  - split; [discriminate | assumption].
Qed.

(** The loop takes the well-formed lines of a prefix of the file one after
    the other, and goes on with what follows. *)
Lemma read_lines_prefix (lines : list pystr) :
  forall (tail : line_stream) (events : list json),
    Forall well_formed (records lines) ->
    exists parsed,
      parsed_from (records lines) parsed
      /\ read_lines (lines_of lines tail) events
         = read_lines tail (events ++ parsed).
Proof.
  induction lines as [|line lines IH]; intros tail events Hwf.
  - exists []. split; [constructor | now rewrite app_nil_r].
  - apply records_forall_cons in Hwf. destruct Hwf as [Hline Hrest].
    cbn [lines_of read_lines]. unfold records at 1. cbn [filter].
    destruct (truthy (strip line)) eqn:Hblank.
    + destruct (Hline eq_refl) as [event Hevent]. rewrite Hevent.
      destruct (IH tail (events ++ [event]) Hrest) as (parsed & Hp & Heq).
      exists (event :: parsed). split.
      * constructor; assumption.
      * rewrite Heq, <- app_assoc. reflexivity.
    + destruct (IH tail events Hrest) as (parsed & Hp & Heq).
      exists parsed. split; assumption.
Qed.

Lemma parsed_from_length lines events :
  parsed_from lines events -> length events = length lines.
Proof. intros H. symmetry. exact (Forall2_length H). Qed.

(** The loader hands back [events] of the [try] block, after the error
    line when the block raised: it never raises itself. *)
Lemma load_session_events_eq (sf : session_file) (o : output) :
  load_session_events sf o
  = (Ok (snd (try_load sf)),
     match fst (try_load sf) with
     | Ok _ => o
     | Raise e => Output (stdout o ++ [error_line sf e]) (stderr o)
     end).
Proof.
  unfold load_session_events.
  destruct (try_load sf) as [[[]|e] events]; reflexivity.
Qed.

(** C8. A file that opens, reads to its end, and whose non-blank lines
    are all well-formed JSON: the loader returns the values of these lines,
    one for each and in the order of the file, and prints nothing. *)
Theorem loader_returns_all_events_in_order
  (sf : session_file) (lines : list pystr) (o : output) :
  open_file sf = Ok (lines_of lines EOF) ->
  Forall well_formed (records lines) ->
  exists events,
    load_session_events sf o = (Ok events, o)
    /\ parsed_from (records lines) events
    /\ length events = length (records lines).
Proof.
  intros Hopen Hwf.
  destruct (read_lines_prefix lines EOF [] Hwf) as (parsed & Hp & Heq).
  exists parsed. split; [|split].
  - rewrite load_session_events_eq. unfold try_load.
    rewrite Hopen, Heq. reflexivity.
  - exact Hp.
  - exact (parsed_from_length Hp).
Qed.


End Loader.

Section Effects.

Lemma bind_Ok {A B} (m : M A) (k : A -> M B) (o o' : output) (b : B) :
  bind m k o = (Ok b, o') ->
  exists a o1, m o = (Ok a, o1) /\ k a o1 = (Ok b, o').
Proof.
  unfold bind. destruct (m o) as [[a|e] o1]; intros H.
  - exists a, o1. split; [reflexivity | assumption].
  - discriminate.
Qed.

Lemma lift_Ok {A} (r : result A) (o o' : output) (a : A) :
  lift r o = (Ok a, o') -> r = Ok a /\ o' = o.
Proof. unfold lift. intros H. inversion H. split; reflexivity. Qed.

Lemma runs_ret {A} (a : A) (o : output) : runs (ret a) o a [].
Proof. unfold runs, ret. rewrite app_nil_r. now destruct o. Qed.

Lemma runs_lift {A} (r : result A) (a : A) (o : output) :
  r = Ok a -> runs (lift r) o a [].
Proof. intros ->. unfold runs, lift. rewrite app_nil_r. now destruct o. Qed.

Lemma runs_print (s : pystr) (o : output) : runs (print s) o tt [s].
Proof. reflexivity. Qed.

Lemma runs_bind {A B} (m : M A) (k : A -> M B) (o : output)
  (a : A) (b : B) (l1 l2 : list pystr) :
  runs m o a l1 ->
  runs (k a) (Output (stdout o ++ l1) (stderr o)) b l2 ->
  runs (bind m k) o b (l1 ++ l2).
Proof.
  unfold runs, bind. intros -> ->. cbn [stdout stderr].
  now rewrite app_assoc.
Qed.

Lemma runs_stderr {A} (m : M A) (o : output) (a : A) (lines : list pystr) :
  runs m o a lines -> stderr (snd (m o)) = stderr o.
Proof. unfold runs. intros ->. reflexivity. Qed.

End Effects.

(** Steps through a computation that is known to go well. *)
Ltac run_step :=
  first
    [ apply runs_ret
    | apply runs_print
    | eapply runs_bind; [apply runs_print|]
    | eapply runs_bind; [apply runs_lift; eassumption|]
    | eapply runs_bind; [apply runs_lift; reflexivity|] ].

Section Formatter.

Context {L : Library}.

(** C6. The formatter returns a value on every input, whatever it is; and
    when the parse of the string (after the replacement of [Z]) fails, the
    value is the string as it was given. *)
Theorem format_timestamp_never_raises :
  (forall ts_str : json, exists v, format_timestamp ts_str = Ok v)
  /\ (forall (s : pystr) (e : lib_exn),
        fromisoformat (replace_char 90%N (lit "+00:00") s) = Raise e ->
        format_timestamp (JStr s) = Ok (JStr s))
  /\ (forall ts_str : json,
        (forall s, ts_str <> JStr s) -> format_timestamp ts_str = Ok ts_str).
Proof.
  split; [|split].
  - intros ts_str. unfold format_timestamp, try_except.
    match goal with |- exists v, match ?body with _ => _ end = _ =>
      destruct body as [v|e] end; eauto.
  - intros s e Hparse. unfold format_timestamp.
    cbn [py_replace_Z bind_result]. rewrite Hparse. reflexivity.
  - intros ts_str Hnot. unfold format_timestamp.
    destruct ts_str; try reflexivity. now destruct (Hnot s).
Qed.

Lemma format_timestamp_total (ts_str : json) :
  exists v, format_timestamp ts_str = Ok v.
Proof.
  unfold format_timestamp, try_except.
  match goal with |- exists v, match ?body with _ => _ end = _ =>
    destruct body as [v|e] end; eauto.
Qed.

Lemma replace_char_absent (old : char) (new s : pystr) :
  ~ In old s -> replace_char old new s = s.
Proof.
  unfold replace_char. induction s as [|c s IH]; intros Hnot.
  - reflexivity.
  - cbn [flat_map]. destruct (N.eqb_spec c old) as [->|Hne].
    + exfalso. apply Hnot. now left.
    + rewrite IH; [reflexivity|]. intros Hin. apply Hnot. now right.
Qed.

Lemma replace_char_app (old : char) (new s t : pystr) :
  replace_char old new (s ++ t)
  = replace_char old new s ++ replace_char old new t.
Proof. unfold replace_char. apply flat_map_app. Qed.

(** C5. A time stamp that ends in [Z] and a time stamp with the offset
    [+00:00] that denote the same instant (after the replacement of [Z],
    the library parses both to the same date-time, which it formats) are
    formatted to the same text, the one of that date-time.  The texts
    before [Z] and before the offset hold no other [Z], as in ISO 8601. *)
Theorem zulu_and_utc_offset_format_identically
  (zulu_time offset_time : pystr) (dt : datetime) (text : pystr) :
  ~ In 90%N zulu_time ->
  ~ In 90%N offset_time ->
  fromisoformat (zulu_time ++ lit "+00:00") = Ok dt ->
  fromisoformat (offset_time ++ lit "+00:00") = Ok dt ->
  strftime_ymd_hms dt = Ok text ->
  format_timestamp (JStr (zulu_time ++ lit "Z")) = Ok (JStr text)
  /\ format_timestamp (JStr (offset_time ++ lit "+00:00"))
     = Ok (JStr text).
Proof.
  intros HnoZ HnoZ' Hparse Hparse' Hformat.
  assert (Hnorm : forall time suffix : pystr,
             ~ In 90%N time ->
             fromisoformat (time ++ lit "+00:00") = Ok dt ->
             replace_char 90%N (lit "+00:00") suffix = lit "+00:00" ->
             format_timestamp (JStr (time ++ suffix)) = Ok (JStr text)).
  { intros time suffix Hno Hdt Hsuffix.
    unfold format_timestamp. cbn [py_replace_Z].
    rewrite replace_char_app,
      (@replace_char_absent 90%N (lit "+00:00") _ Hno), Hsuffix.
    cbn [bind_result]. rewrite Hdt. cbn [from_library bind_result].
    rewrite Hformat. reflexivity. }
  split; apply Hnorm; trivial; reflexivity.
Qed.

End Formatter.

Section Renderer.

Context {L : Library}.

Lemma py_eq_str_true (v : json) (s : pystr) :
  py_eq_str v s = true -> v = JStr s.
Proof.
  destruct v; try discriminate. cbn. intros H.
  apply eqb_eq in H. now subst.
Qed.

Lemma getitem_field (v x : json) (key : string) :
  py_getitem v (lit key) = Ok x <-> field key v = Some x.
Proof.
  unfold py_getitem, field. destruct v; try (split; discriminate).
  destruct (lookup (lit key) fields); split; congruence.
Qed.

(** C10. An event with [ts] and [type] whose type is none of the five
    known ones: the loop turn prints nothing and leaves both counters as
    they were. *)
Theorem unknown_event_type_renders_nothing
  (event ts_str event_type : json) (c : counters) (o : output) :
  field "ts" event = Some ts_str ->
  field "type" event = Some event_type ->
  (forall known, In known known_types -> py_eq_str event_type known = false) ->
  analyze_event event c o = (Ok c, o).
Proof.
  intros Hts Htype Hunknown.
  apply getitem_field in Hts, Htype.
  destruct (format_timestamp_total ts_str) as [ts Hformat].
  unfold analyze_event, getitem, bind, lift.
  rewrite Hts, Hformat, Htype.
  rewrite !Hunknown by (unfold known_types; simpl; tauto).
  reflexivity.
Qed.

(** C7. A [user_input] event whose input is a text: of at most 100
    characters, it is printed as it is; of 101 characters or more, its
    first 100 characters are printed, followed by three dots. *)
Theorem user_input_truncated_beyond_100
  (event ts_str data : json) (text : pystr) (c : counters) (o : output) :
  field "ts" event = Some ts_str ->
  field "type" event = Some (JStr (lit "user_input")) ->
  field "data" event = Some data ->
  field "input" data = Some (JStr text) ->
  (length text <= 100 ->
   runs (analyze_event event c) o c [lit "  👤 Input: " ++ text])
  /\ (101 <= length text ->
      runs (analyze_event event c) o c
        [lit "  👤 Input: " ++ firstn 100 text ++ lit "..."]).
Proof.
  intros Hts Htype Hdata Hinput.
  apply getitem_field in Hts, Htype, Hdata, Hinput.
  destruct (format_timestamp_total ts_str) as [ts Hformat].
  assert (Hhead : forall shown,
    (if 100 <? length text
     then lift (head <~ py_slice_to 100 (JStr text) ;;
                py_add_str head (lit "..."))
     else ret (JStr text)) = ret (JStr shown) ->
    runs (analyze_event event c) o c [lit "  👤 Input: " ++ shown]).
  { intros shown Hshown.
    eassert (Hrun : runs (analyze_event event c) o c _).
    { unfold analyze_event, getitem. do 3 run_step.
      change (py_eq_str (JStr (lit "user_input")) (lit "session_start"))
        with false.
      change (py_eq_str (JStr (lit "user_input")) (lit "user_input"))
        with true.
      cbv iota. do 2 run_step.
      eapply runs_bind; [apply runs_lift; reflexivity|].
      cbn [length]. rewrite Hshown.
      eapply runs_bind; [apply runs_ret|].
      cbn [py_str]. do 2 run_step. }
    exact Hrun. }
  split; intros Hlen; apply Hhead.
  - destruct (Nat.ltb_spec 100 (length text)); [lia | reflexivity].
  - destruct (Nat.ltb_spec 100 (length text)); [reflexivity | lia].
Qed.

Lemma count_cons (p : json -> bool) (event : json) (events : list json) :
  count p (event :: events) = (if p event then 1 else 0) + count p events.
Proof. unfold count. cbn [filter]. now destruct (p event). Qed.

Ltac invert_binds H :=
  repeat (apply bind_Ok in H;
          let a := fresh "a" in
          let o := fresh "o" in
          let Hm := fresh "Hm" in
          destruct H as (a & o & Hm & H)).

Ltac returned H :=
  invert_binds H; unfold ret in H; inversion H; subst; clear H.

Lemma analyze_event_counters
  (event : json) (c c' : counters) (o o' : output) :
  analyze_event event c o = (Ok c', o') ->
  tool_count c' = tool_count c + tool_increment event
  /\ mcp_tool_count c' = mcp_tool_count c + mcp_increment event.
Proof.
  unfold analyze_event, tool_increment, mcp_increment. intros H.
  apply bind_Ok in H. destruct H as (ts_str & o1 & _ & H).
  apply bind_Ok in H. destruct H as (ts & o2 & _ & H).
  apply bind_Ok in H. destruct H as (event_type & o3 & Htype & H).
  apply lift_Ok in Htype. destruct Htype as [Htype _].
  apply getitem_field in Htype.
  unfold is_tool_start. rewrite Htype.
  destruct (py_eq_str event_type (lit "session_start")) eqn:E1.
  { apply py_eq_str_true in E1. subst event_type. returned H.
    cbn. split; lia. }
  destruct (py_eq_str event_type (lit "user_input")) eqn:E2.
  { apply py_eq_str_true in E2. subst event_type. returned H.
    cbn. split; lia. }
  destruct (py_eq_str event_type (lit "tool_execute_start")) eqn:E3.
  { apply bind_Ok in H. destruct H as (data & o4 & Hdata & H).
    apply lift_Ok in Hdata. destruct Hdata as [Hdata _].
    apply getitem_field in Hdata.
    apply bind_Ok in H. destruct H as (mcp_server & o5 & Hget & H).
    apply lift_Ok in Hget. destruct Hget as [Hget _].
    assert (Hserver : names_mcp_server event = py_truthy mcp_server).
    { unfold names_mcp_server. rewrite Hdata.
      unfold py_get in Hget. unfold field.
      destruct data; try discriminate.
      destruct (lookup (lit "mcp_server") fields); inversion Hget; subst;
        reflexivity. }
    rewrite Hserver. returned H. cbn [tool_count mcp_tool_count andb].
    destruct (py_truthy mcp_server); split; lia. }
  destruct (py_eq_str event_type (lit "tool_execute_end")) eqn:E4.
  { returned H. cbn. split; lia. }
  destruct (py_eq_str event_type (lit "session_end")) eqn:E5.
  { returned H. cbn. split; lia. }
  returned H. cbn. split; lia.
Qed.

Lemma analyze_events_counters (events : list json) :
  forall (c c' : counters) (o o' : output),
    analyze_events events c o = (Ok c', o') ->
    tool_count c' = tool_count c + count_tool_starts events
    /\ mcp_tool_count c' = mcp_tool_count c + count_mcp_starts events.
Proof.
  unfold count_tool_starts, count_mcp_starts.
  induction events as [|event events IH]; intros c c' o o' H.
  - unfold analyze_events, ret in H. inversion H; subst.
    cbn. split; lia.
  - cbn [analyze_events] in H.
    apply bind_Ok in H. destruct H as (c1 & o1 & Hevent & H).
    apply analyze_event_counters in Hevent. apply IH in H.
    rewrite !count_cons. unfold tool_increment, mcp_increment in Hevent.
    destruct Hevent, H. split; lia.
Qed.

(** C4, as amended. In a session that is rendered to its end, every
    [tool_execute_start] event counts as a tool invocation, and those whose
    [data] names an MCP server (a member [mcp_server] that is neither null
    nor empty) count as MCP invocations; the last line printed for the
    session is the footer with these two counts. *)
Theorem footer_reports_tool_and_mcp_counts
  (sf : session_file) (o o' : output) :
  snd (try_load sf) <> [] ->
  analyze_session sf o = (Ok tt, o') ->
  exists transcript,
    stdout o'
    = transcript
      ++ [footer (Counters (count_tool_starts (snd (try_load sf)))
                           (count_mcp_starts (snd (try_load sf))))].
Proof.
  intros Hevents H. unfold analyze_session in H.
  apply bind_Ok in H. destruct H as (events & o1 & Hload & H).
  rewrite load_session_events_eq in Hload. inversion Hload; subst. clear Hload.
  destruct (snd (try_load sf)) as [|first rest] eqn:Eevents;
    [now destruct Hevents|].
  apply bind_Ok in H. destruct H as (session_id & o2 & _ & H).
  apply bind_Ok in H. destruct H as ([] & o3 & _ & H).
  apply bind_Ok in H. destruct H as ([] & o4 & _ & H).
  apply bind_Ok in H. destruct H as (c & o5 & Hloop & H).
  apply analyze_events_counters in Hloop. cbn [tool_count mcp_tool_count] in Hloop.
  destruct Hloop as [Htools Hmcp]. destruct c as [tools mcp].
  cbn [tool_count mcp_tool_count] in Htools, Hmcp. subst tools mcp.
  unfold print in H. inversion H; subst. cbn [stdout].
  exists (stdout o5). reflexivity.
Qed.

Ltac use_facts :=
  repeat match goal with
    | H : lookup _ _ = _ |- _ => rewrite H
    | H : py_eq_str _ _ = _ |- _ => rewrite H
    | H : py_truthy _ = _ |- _ => rewrite H
    | H : format_timestamp _ = _ |- _ => rewrite H
    | H : (_ <? _) = _ |- _ => rewrite H
    end.

Ltac run_lift :=
  apply runs_lift;
  cbn [py_getitem py_get py_contains py_len py_slice_to py_add_str
       bind_result];
  use_facts; reflexivity.

Lemma runs_if {A} (b v : bool) (m1 m2 : M A) (o : output) (a : A)
  (lines : list pystr) :
  b = v ->
  runs (if v then m1 else m2) o a lines ->
  runs (if b then m1 else m2) o a lines.
Proof. now intros ->. Qed.

Ltac run_one :=
  lazymatch goal with
  | |- runs (ret _) _ _ _ => apply runs_ret
  | |- runs (print _) _ _ _ => apply runs_print
  | |- runs (lift _) _ _ _ => run_lift
  | |- runs (bind _ _) _ _ _ => eapply runs_bind; [|cbn [stdout stderr]]
  | |- runs (if ?b then _ else _) _ _ _ =>
      lazymatch goal with
      | H : b = _ |- _ => eapply runs_if; [exact H | cbv iota]
      end
  end.

Ltac run := repeat (cbv beta iota zeta; run_one).

(** The literals are compared as they are written, not by their
    characters. *)
#[local] Opaque lit.

Lemma not_over (n limit : nat) : (n <=? limit) = true -> (limit <? n) = false.
Proof. intros H. apply Nat.leb_le in H. apply Nat.ltb_ge. exact H. Qed.

(** An event that has what the renderer reads is rendered without an
    exception. *)
Lemma event_ok_runs (event : json) (c : counters) (o : output) :
  event_ok event = true ->
  exists c' lines, runs (analyze_event event c) o c' lines.
Proof.
  unfold event_ok, field. intros Hok.
  destruct event as [| | | | |items|fields]; try discriminate.
  destruct (lookup (lit "ts") fields) as [ts_str|] eqn:Hts;
    [|discriminate].
  destruct (lookup (lit "type") fields) as [event_type|] eqn:Htype;
    [|discriminate].
  destruct (format_timestamp_total ts_str) as [ts Hformat].
  unfold data_ok in Hok.
  unfold analyze_event, print_tool_execution, getitem.
  destruct (py_eq_str event_type (lit "session_start")) eqn:E1.
  { destruct (lookup (lit "data") fields) as [[]|] eqn:Hdata;
      try discriminate.
    destruct (lookup (lit "model_id") fields0) eqn:Hmodel;
      destruct (lookup (lit "interactive") fields0) eqn:Hinter;
      do 2 eexists; run. }
  destruct (py_eq_str event_type (lit "user_input")) eqn:E2.
  { destruct (lookup (lit "data") fields) as [[]|] eqn:Hdata;
      try discriminate.
    destruct (lookup (lit "input") fields0) as [input|] eqn:Hinput;
      [|discriminate].
    destruct input; try discriminate; cbn [input_ok] in Hok.
    - destruct (100 <? length s) eqn:Hlong; do 2 eexists; run.
    - apply not_over in Hok. do 2 eexists; run.
    - apply not_over in Hok. do 2 eexists; run. }
  destruct (py_eq_str event_type (lit "tool_execute_start")) eqn:E3.
  { destruct (lookup (lit "data") fields) as [[]|] eqn:Hdata;
      try discriminate.
    destruct (lookup (lit "tool_name") fields0) eqn:Hname; [|discriminate].
    destruct (lookup (lit "mcp_server") fields0) as [server|] eqn:Hserver.
    - destruct (py_truthy server) eqn:Htruthy; do 2 eexists; run.
    - do 2 eexists; run. }
  destruct (py_eq_str event_type (lit "tool_execute_end")) eqn:E4.
  { destruct (lookup (lit "data") fields) as [[]|] eqn:Hdata;
      try discriminate.
    destruct (lookup (lit "status") fields0) as [status|] eqn:Hstatus;
      [|discriminate].
    destruct (py_eq_str status (lit "success")) eqn:Hsuccess;
      destruct (lookup (lit "duration_ms") fields0) eqn:Hduration;
      (destruct (lookup (lit "output") fields0) as [output|] eqn:Houtput;
       [ destruct output; try discriminate; cbn [output_ok] in Hok;
         [ destruct (200 <? length s) eqn:Hlong
         | destruct (200 <? length items) eqn:Hlong
         | apply not_over in Hok ]
       | ]);
      do 2 eexists; run. }
  destruct (py_eq_str event_type (lit "session_end")) eqn:E5;
    do 2 eexists; run.
Qed.

Lemma events_ok_run (events : list json) :
  forall (c : counters) (o : output),
    forallb event_ok events = true ->
    exists c' lines, runs (analyze_events events c) o c' lines.
Proof.
  induction events as [|event events IH]; intros c o Hok.
  - exists c, []. apply runs_ret.
  - cbn [forallb] in Hok. apply andb_true_iff in Hok.
    destruct Hok as [Hevent Hrest].
    destruct (event_ok_runs event c o Hevent) as (c1 & l1 & H1).
    destruct (IH c1 (Output (stdout o ++ l1) (stderr o)) Hrest)
      as (c2 & l2 & H2).
    exists c2, (l1 ++ l2). cbn [analyze_events].
    eapply runs_bind; eassumption.
Qed.

Lemma load_session_events_runs (sf : session_file) (o : output) :
  runs (load_session_events sf) o (snd (try_load sf)) (error_lines sf).
Proof.
  unfold runs, error_lines. rewrite load_session_events_eq.
  destruct (fst (try_load sf)); [|reflexivity].
  rewrite app_nil_r. now destruct o.
Qed.





End Renderer.

Section Discovery.

Context {L : Library}.





Lemma insert_by_mtime_filter (t : Z) (x : session_file)
  (sorted : list session_file) :
  filter (fun sf => (st_mtime sf =? t)%Z) (insert_by_mtime x sorted)
  = filter (fun sf => (st_mtime sf =? t)%Z) (x :: sorted).
Proof.
  induction sorted as [|y sorted IH]; [reflexivity|].
  cbn [insert_by_mtime].
  destruct (Z.leb_spec (st_mtime y) (st_mtime x)) as [Hle|Hgt];
    [reflexivity|].
  cbn [filter] in *. rewrite IH.
  destruct (Z.eqb_spec (st_mtime x) t), (Z.eqb_spec (st_mtime y) t);
    try reflexivity; lia.
Qed.

(** The sort is stable: the files of one modification time keep the order
    in which the directory listed them. *)
Lemma sort_by_mtime_desc_stable (t : Z) (files : list session_file) :
  filter (fun sf => (st_mtime sf =? t)%Z) (sort_by_mtime_desc files)
  = filter (fun sf => (st_mtime sf =? t)%Z) files.
Proof.
  induction files as [|x rest IH]; [reflexivity|].
  cbn [sort_by_mtime_desc]. rewrite insert_by_mtime_filter.
  cbn [filter]. now rewrite IH.
Qed.



End Discovery.

(** * The theorems at the sample files *)

Ltac well_formed_records :=
  vm_compute;
  repeat (apply Forall_cons; [eexists; vm_compute; reflexivity|]);
  apply Forall_nil.

Lemma loader_returns_all_events_in_order_witness :
  exists events,
    load_session_events (L := Sample.library) Sample.session_complete
      no_output = (Ok events, no_output)
    /\ length events = 8.
Proof.
  destruct (@loader_returns_all_events_in_order Sample.library
              Sample.session_complete
              [Sample.line_start; Sample.line_input;
               Sample.line_tool_builtin; Sample.line_tool_end;
               Sample.line_tool_mcp; Sample.line_blank;
               Sample.line_tool_null_server; Sample.line_heartbeat;
               Sample.line_end]
              no_output eq_refl ltac:(well_formed_records))
    as (events & Hload & _ & Hlength).
  exists events. split; [exact Hload | exact Hlength].
Defined.


Lemma format_timestamp_never_raises_witness :
  format_timestamp (L := Sample.library) (JStr (lit "yesterday at noon"))
  = Ok (JStr (lit "yesterday at noon"))
  /\ format_timestamp (L := Sample.library) (JInt 1705314600)
     = Ok (JInt 1705314600).
Proof.
  split.
  - apply (proj1 (proj2 (@format_timestamp_never_raises Sample.library))
             (lit "yesterday at noon")
             (LibExn (lit "Invalid isoformat string: 'yesterday at noon'"))).
    vm_compute. reflexivity.
  - apply (proj2 (proj2 (@format_timestamp_never_raises Sample.library))).
    intros s. discriminate.
Defined.

Lemma zulu_and_utc_offset_format_identically_witness :
  format_timestamp (L := Sample.library)
    (JStr (lit "2024-01-15T10:30:00" ++ lit "Z"))
  = Ok (JStr (lit "2024-01-15 10:30:00"))
  /\ format_timestamp (L := Sample.library)
       (JStr (lit "2024-01-15T10:30:00" ++ lit "+00:00"))
     = Ok (JStr (lit "2024-01-15 10:30:00")).
Proof.
  assert (HnoZ : ~ In 90%N (lit "2024-01-15T10:30:00")).
  { vm_compute. intros H.
    repeat (destruct H as [H|H]; [discriminate H|]). exact H. }
  apply (@zulu_and_utc_offset_format_identically Sample.library
           (lit "2024-01-15T10:30:00") (lit "2024-01-15T10:30:00")
           (Sample.DateTime 2024 1 15 10 30 0)
           (lit "2024-01-15 10:30:00") HnoZ HnoZ).
  - vm_compute. reflexivity.
  - vm_compute. reflexivity.
  - vm_compute. reflexivity.
Defined.

Lemma unknown_event_type_renders_nothing_witness :
  analyze_event (L := Sample.library) Sample.event_heartbeat
    (Counters 2 1) no_output
  = (Ok (Counters 2 1), no_output).
Proof.
  apply (@unknown_event_type_renders_nothing Sample.library
           Sample.event_heartbeat (Sample.str "soon")
           (Sample.str "heartbeat")).
  - vm_compute. reflexivity.
  - vm_compute. reflexivity.
  - intros known Hknown. unfold known_types in Hknown.
    repeat (destruct Hknown as [<-|Hknown]; [vm_compute; reflexivity|]).
    destruct Hknown.
Defined.

Lemma user_input_truncated_beyond_100_witness :
  runs (analyze_event (L := Sample.library) (Sample.input_of_length 100)
          (Counters 0 0))
    no_output (Counters 0 0) [lit "  👤 Input: " ++ repeat 120%N 100]
  /\ runs (analyze_event (L := Sample.library) (Sample.input_of_length 101)
             (Counters 0 0))
       no_output (Counters 0 0)
       [lit "  👤 Input: " ++ repeat 120%N 100 ++ lit "..."].
Proof.
  split.
  - apply (proj1 (@user_input_truncated_beyond_100 Sample.library
                    (Sample.input_of_length 100)
                    (Sample.str "2024-01-15T10:30:05Z")
                    (JDict [(lit "input", JStr (repeat 120%N 100))])
                    (repeat 120%N 100) (Counters 0 0) no_output
                    ltac:(vm_compute; reflexivity)
                    ltac:(vm_compute; reflexivity)
                    ltac:(vm_compute; reflexivity)
                    ltac:(vm_compute; reflexivity))).
    vm_compute. lia.
  - apply (proj2 (@user_input_truncated_beyond_100 Sample.library
                    (Sample.input_of_length 101)
                    (Sample.str "2024-01-15T10:30:05Z")
                    (JDict [(lit "input", JStr (repeat 120%N 101))])
                    (repeat 120%N 101) (Counters 0 0) no_output
                    ltac:(vm_compute; reflexivity)
                    ltac:(vm_compute; reflexivity)
                    ltac:(vm_compute; reflexivity)
                    ltac:(vm_compute; reflexivity))).
    vm_compute. lia.
Defined.

Lemma footer_reports_tool_and_mcp_counts_witness :
  exists transcript,
    stdout (snd (analyze_session (L := Sample.library)
                   Sample.session_complete no_output))
    = transcript ++ [lit "  📊 Total tools: 3 (MCP: 1)"].
Proof.
  destruct (@footer_reports_tool_and_mcp_counts Sample.library
              Sample.session_complete no_output
              (snd (analyze_session (L := Sample.library)
                      Sample.session_complete no_output))
              ltac:(vm_compute; discriminate)
              ltac:(vm_compute; reflexivity))
    as (transcript & Hfooter).
  exists transcript. rewrite Hfooter. f_equal; vm_compute; reflexivity.
Defined.



Example seven_sessions_rendered_and_ignored :
  map name (rendered_files Sample.seven_sessions)
  = map lit ["session-complete.jsonl"; "session-cut.jsonl";
             "session-locked.jsonl"; "session-d.jsonl"; "session-c.jsonl"]
  /\ map name (ignored_files Sample.seven_sessions)
     = map lit ["session-b.jsonl"; "session-a.jsonl"]
  /\ map name (glob_session_files Sample.audit_directory)
     = map name Sample.seven_sessions.
Proof. vm_compute. repeat split. Qed.



(** C4, as stated, fails: of the three [tool_execute_start] events of the
    sample session, two have a member [mcp_server] in their data, one of
    them null; the footer counts one MCP invocation, not two. *)
Lemma null_mcp_server_is_not_counted :
  let events := snd (try_load (L := Sample.library)
                       Sample.session_complete) in
  let o := snd (analyze_session (L := Sample.library)
                  Sample.session_complete no_output) in
  count_tool_starts events = 3
  /\ count_mcp_fields events = 2
  /\ last (stdout o) [] = footer (Counters 3 1)
  /\ last (stdout o) []
     <> footer (Counters (count_tool_starts events)
                         (count_mcp_fields events)).
Proof. vm_compute. repeat split. discriminate. Qed.

(** * Further properties of the viewer *)

Section Names.

Lemma startswith_prefix (p s : pystr) :
  startswith p s = true <-> exists t, s = p ++ t.
Proof.
  revert s. induction p as [|a p IH]; intros s; cbn [startswith].
  - split; [intros _; now exists s | reflexivity].
  - destruct s as [|b s].
    + split; [discriminate | intros [t Ht]; discriminate].
    + rewrite andb_true_iff, N.eqb_eq, IH. split.
      * intros [-> [t ->]]. now exists t.
      * intros [t Ht]. inversion Ht; subst. split; [reflexivity | now exists t].
Qed.

Lemma endswith_suffix (p s : pystr) :
  endswith p s = true <-> exists t, s = t ++ p.
Proof.
  unfold endswith. rewrite startswith_prefix. split; intros [t Ht].
  - exists (rev t). rewrite <- (rev_involutive s), Ht, rev_app_distr.
    now rewrite rev_involutive.
  - exists (rev t). rewrite Ht, rev_app_distr. reflexivity.
Qed.

Lemma matches_session_glob_iff (file_name : pystr) :
  matches_session_glob file_name = true
  <-> exists middle, file_name = lit "session-" ++ middle ++ lit ".jsonl".
Proof.
  unfold matches_session_glob.
  rewrite !andb_true_iff, startswith_prefix, endswith_suffix, Nat.leb_le.
  split.
  - intros [[[t Ht] [u Hu]] Hlen].
    rewrite Ht in Hu. apply app_eq_app in Hu.
    destruct Hu as [l [[Hp Hq]|[Hp Hq]]].
    + exists []. rewrite Ht. f_equal. cbn [app].
      assert (Hl : length l = 0).
      { apply (f_equal (@length _)) in Hq. rewrite Ht in Hlen.
        rewrite !length_app in *. lia. }
      destruct l; [|discriminate]. now rewrite Hq.
    + exists l. rewrite Ht, Hq. reflexivity.
  - intros [middle ->]. repeat split.
    + now exists (middle ++ lit ".jsonl").
    + exists (lit "session-" ++ middle). now rewrite app_assoc.
    + rewrite !length_app. lia.
Qed.

(** X1. The names that [glob("session-*.jsonl")] keeps are the names of
    the form [session-] + anything + [.jsonl], and no others. *)
Theorem session_glob_matches_exactly (file_name : pystr) :
  matches_session_glob file_name = true
  <-> exists middle, file_name = lit "session-" ++ middle ++ lit ".jsonl".
Proof.
  split; intros H; apply matches_session_glob_iff; exact H.
Qed.

Lemma lstrip_blank (s : pystr) : lstrip s = [] <-> blank s.
Proof.
  unfold blank. induction s as [|c s IH]; cbn [lstrip].
  - split; [constructor | reflexivity].
  - destruct (isspace c) eqn:Hc.
    + rewrite IH. split; intros H.
      * now constructor.
      * now inversion H.
    + split; [discriminate|]. intros H.
      inversion H as [|? ? Hspace _]. cbv beta in Hspace.
      rewrite Hc in Hspace. discriminate.
Qed.

Lemma lstrip_keeps (s : pystr) :
  exists spaces, s = spaces ++ lstrip s /\ blank spaces.
Proof.
  unfold blank. induction s as [|c s IH]; cbn [lstrip].
  - exists []. split; [reflexivity | constructor].
  - destruct (isspace c) eqn:Hc.
    + destruct IH as (spaces & Hs & Hblank). exists (c :: spaces).
      split; [cbn; now rewrite <- Hs | now constructor].
    + exists []. split; [reflexivity | constructor].
Qed.

Lemma strip_blank_iff (line : pystr) :
  truthy (strip line) = false <-> blank line.
Proof.
  assert (Hempty : forall s : pystr, truthy s = false <-> s = [])
    by (intros [|c s]; cbn [truthy]; split; congruence).
  rewrite Hempty. unfold strip. split.
  - intros H. apply (f_equal (@rev _)) in H.
    rewrite rev_involutive in H. cbn [rev] in H.
    apply lstrip_blank in H. apply lstrip_blank.
    unfold blank in *. rewrite Forall_forall in H.
    destruct (lstrip line) as [|c s] eqn:Hl; [reflexivity|].
    assert (Hc : isspace c = true) by (apply H, in_rev; rewrite rev_involutive; now left).
    assert (Hnot : isspace c = false).
    { clear -Hl. induction line as [|a line IH]; cbn [lstrip] in Hl;
        [discriminate|].
      destruct (isspace a) eqn:Ha; [now apply IH | congruence]. }
    congruence.
  - intros H. apply lstrip_blank in H. rewrite H. reflexivity.
Qed.

(** X2. A line is skipped by the loader exactly when it is made of white
    space only: [line.strip()] is empty if and only if every character of
    the line is a space character. *)
Theorem strip_is_empty_on_blank_lines_only (line : pystr) :
  truthy (strip line) = false <-> blank line.
Proof.
  split; intros H; apply strip_blank_iff; exact H.
Qed.

End Names.

Section Directories.

Context {L : Library}.

(** X3. [find_audit_directory] returns the first candidate in the order
    of priority, the matches of the snap pattern before the standard
    directory, and nothing when there is no candidate. *)
Theorem find_audit_directory_takes_first_candidate (env : environment) :
  find_audit_directory env = hd_error (candidate_directories env)
  /\ (forall d rest, snap_matches env = d :: rest ->
                     find_audit_directory env = Some d)
  /\ (find_audit_directory env = None
      <-> snap_matches env = [] /\ standard_dir env = None).
Proof.
  unfold find_audit_directory, candidate_directories.
  destruct (snap_matches env) as [|d rest]; cbn [app hd_error].
  - split; [|split].
    + now destruct (standard_dir env).
    + discriminate.
    + tauto.
  - split; [reflexivity|]. split.
    + intros d' rest' H. now inversion H.
    + split; [discriminate | intros [H _]; discriminate].
Qed.

(** X4. The two early exits of [main].  Without an audit directory it
    prints the one line that says so.  With an audit directory none of
    whose entries is named [session-*.jsonl], it prints the directory line
    and the line that says that no session file was found, and nothing
    for any entry. *)
Theorem main_stops_early_without_sessions (env : environment) (o : output) :
  (find_audit_directory env = None ->
   runs (main env) o tt [lit "❌ No audit directory found"])
  /\ (forall audit_dir,
        find_audit_directory env = Some audit_dir ->
        (forall sf middle,
            In sf (entries audit_dir) ->
            name sf <> lit "session-" ++ middle ++ lit ".jsonl") ->
        runs (main env) o tt
          [lit "📁 Audit directory: " ++ dir_path audit_dir;
           lit "❌ No session files found"]).
Proof.
  split.
  - intros Hnone. unfold main. rewrite Hnone. apply runs_print.
  - intros audit_dir Hfind Hnames. unfold main. rewrite Hfind.
    assert (Hglob : glob_session_files audit_dir = []).
    { unfold glob_session_files.
      induction (entries audit_dir) as [|sf files IH]; [reflexivity|].
      cbn [filter].
      destruct (matches_session_glob (name sf)) eqn:Hmatch.
      - apply matches_session_glob_iff in Hmatch.
        destruct Hmatch as [middle Hname].
        now destruct (Hnames sf middle (or_introl eq_refl)).
      - apply IH. intros sf' middle Hin. apply Hnames. now right. }
    rewrite Hglob.
    change [lit "📁 Audit directory: " ++ dir_path audit_dir;
            lit "❌ No session files found"]
      with ([lit "📁 Audit directory: " ++ dir_path audit_dir]
            ++ [lit "❌ No session files found"]).
    eapply runs_bind; apply runs_print.
Qed.

End Directories.

Section LoaderFailures.

Context {L : Library}.



(** X7. A file that holds blank lines only, or no line at all: nothing
    is printed for it, neither a header nor a footer, and nothing is
    raised. *)
Theorem blank_file_prints_nothing
  (sf : session_file) (lines : list pystr) (o : output) :
  open_file sf = Ok (lines_of lines EOF) ->
  Forall blank lines ->
  analyze_session sf o = (Ok tt, o).
Proof.
  intros Hopen Hblank.
  assert (Hrecords : records lines = []).
  { clear Hopen. unfold records.
    induction Hblank as [|line lines Hline _ IH]; [reflexivity|].
    cbn [filter]. apply strip_blank_iff in Hline.
    rewrite Hline. exact IH. }
  assert (Hwf : Forall well_formed (records lines))
    by (rewrite Hrecords; constructor).
  destruct (read_lines_prefix lines EOF [] Hwf) as (parsed & Hp & Heq).
  rewrite Hrecords in Hp. inversion Hp; subst.
  unfold analyze_session, bind. rewrite load_session_events_eq.
  unfold try_load. rewrite Hopen, Heq. reflexivity.
Qed.

End LoaderFailures.

Section OutputDiscipline.

Context {L : Library}.

Lemma uniform_ret {A} (a : A) : uniform (ret a).
Proof.
  exists (Ok a), []. intros o. unfold ret. rewrite app_nil_r. now destruct o.
Qed.

Lemma uniform_lift {A} (r : result A) : uniform (lift r).
Proof.
  exists r, []. intros o. unfold lift. rewrite app_nil_r. now destruct o.
Qed.

Lemma uniform_print (s : pystr) : uniform (print s).
Proof. exists (Ok tt), [s]. reflexivity. Qed.

Lemma uniform_bind {A B} (m : M A) (k : A -> M B) :
  uniform m -> (forall a, uniform (k a)) -> uniform (bind m k).
Proof.
  intros (r & l1 & Hm) Hk. destruct r as [a|e].
  - destruct (Hk a) as (r2 & l2 & Hka). exists r2, (l1 ++ l2).
    intros o. unfold bind. rewrite Hm, Hka. cbn [stdout stderr].
    now rewrite app_assoc.
  - exists (Raise e), l1. intros o. unfold bind. now rewrite Hm.
Qed.

Lemma uniform_if {A} (b : bool) (m1 m2 : M A) :
  uniform m1 -> uniform m2 -> uniform (if b then m1 else m2).
Proof. now destruct b. Qed.

Ltac uniformity :=
  repeat (cbv beta zeta;
          lazymatch goal with
          | |- uniform (ret _) => apply uniform_ret
          | |- uniform (lift _) => apply uniform_lift
          | |- uniform (getitem _ _) => apply uniform_lift
          | |- uniform (print _) => apply uniform_print
          | |- uniform (bind _ _) => apply uniform_bind; [|intros ?]
          | |- uniform (if _ then _ else _) => apply uniform_if
          end).

Lemma uniform_print_tool_execution (event : json) :
  uniform (print_tool_execution event).
Proof. unfold print_tool_execution. uniformity. Qed.

Lemma uniform_analyze_event (event : json) (c : counters) :
  uniform (analyze_event event c).
Proof.
  unfold analyze_event. uniformity; apply uniform_print_tool_execution.
Qed.

Lemma uniform_analyze_events (events : list json) :
  forall c, uniform (analyze_events events c).
Proof.
  induction events as [|event events IH]; intros c; cbn [analyze_events].
  - apply uniform_ret.
  - apply uniform_bind; [apply uniform_analyze_event | intros c'; apply IH].
Qed.

Lemma uniform_load_session_events (sf : session_file) :
  uniform (load_session_events sf).
Proof.
  exists (Ok (snd (try_load sf))), (error_lines sf). intros o.
  rewrite load_session_events_eq. unfold error_lines.
  destruct (fst (try_load sf)); [|reflexivity].
  rewrite app_nil_r. now destruct o.
Qed.

Lemma uniform_analyze_session (sf : session_file) :
  uniform (analyze_session sf).
Proof.
  unfold analyze_session.
  apply uniform_bind; [apply uniform_load_session_events|].
  intros [|first rest]; [apply uniform_ret|].
  uniformity. apply uniform_analyze_events.
Qed.

Lemma uniform_for_each {A} (body : A -> M unit) (xs : list A) :
  (forall x, uniform (body x)) -> uniform (for_each xs body).
Proof.
  intros Hbody. induction xs as [|x xs IH]; cbn [for_each].
  - apply uniform_ret.
  - apply uniform_bind; [apply Hbody | intros _; exact IH].
Qed.

(** X8. Whatever the files hold, and also when the run ends in an
    exception, [main] only adds lines to standard output: what was printed
    before stays, standard error is never written, and the outcome and
    the lines added do not depend on what was printed before. *)
Theorem main_only_appends_to_stdout (env : environment) :
  exists (r : result unit) (lines : list pystr),
    forall o : output,
      main env o = (r, Output (stdout o ++ lines) (stderr o)).
Proof.
  change (uniform (main env)). unfold main.
  destruct (find_audit_directory env) as [audit_dir|];
    [|apply uniform_print].
  destruct (glob_session_files audit_dir) as [|sf files].
  - apply uniform_bind; [apply uniform_print | intros _; apply uniform_print].
  - uniformity. apply uniform_for_each, uniform_analyze_session.
Qed.

Lemma analyze_session_from (sf : session_file) (o : output) :
  analyze_session sf o
  = (ending sf, Output (stdout o ++ transcript sf) (stderr o)).
Proof.
  destruct (uniform_analyze_session sf) as (r & lines & H).
  unfold ending, transcript. rewrite (H o), (H no_output). reflexivity.
Qed.

(** X9. The loop over the session files: as long as the sessions are
    rendered to their end, their transcripts follow one another; the first
    session that raises ends the loop with its exception, after what it
    printed, and the files that follow it are not rendered. *)
Theorem a_raise_ends_the_loop
  (done : list session_file) (sf : session_file)
  (others : list session_file) (e : exn) (o : output) :
  (forall sf', In sf' done -> ending sf' = Ok tt) ->
  runs (for_each done analyze_session) o tt (concat (map transcript done))
  /\ (ending sf = Raise e ->
      raises (for_each (done ++ sf :: others) analyze_session) o e
        (concat (map transcript done) ++ transcript sf)).
Proof.
  revert o. induction done as [|sf' done IH]; intros o Hdone.
  - split; [apply runs_ret|]. intros Hraise.
    cbn [app for_each map concat]. unfold raises, bind.
    rewrite analyze_session_from, Hraise. reflexivity.
  - assert (Hsf' : runs (analyze_session sf') o tt (transcript sf')).
    { unfold runs. rewrite analyze_session_from, (Hdone sf' (or_introl eq_refl)).
      reflexivity. }
    destruct (IH (Output (stdout o ++ transcript sf') (stderr o))
                (fun x Hx => Hdone x (or_intror Hx))) as [Hrun Hraise].
    split.
    + cbn [for_each map concat]. eapply runs_bind; eassumption.
    + intros He. specialize (Hraise He).
      cbn [app for_each map concat]. unfold raises, bind in *.
      unfold runs in Hsf'. rewrite Hsf'. rewrite Hraise.
      cbn [stdout stderr]. now rewrite !app_assoc.
Qed.

End OutputDiscipline.

Ltac step_lift :=
  apply runs_lift;
  cbn [py_getitem py_get py_contains py_len py_slice_to py_add_str
       bind_result];
  repeat match goal with
    | H : lookup _ _ = _ |- _ => rewrite H
    | H : format_timestamp _ = _ |- _ => rewrite H
    end;
  reflexivity.

Ltac step :=
  lazymatch goal with
  | |- runs (ret _) _ _ _ => apply runs_ret
  | |- runs (print _) _ _ _ => apply runs_print
  | |- runs (lift _) _ _ _ => step_lift
  | |- runs (bind _ _) _ _ _ => eapply runs_bind; [|cbn [stdout stderr]]
  | |- runs (if ?b then _ else _) _ _ _ =>
      lazymatch goal with
      | H : b = _ |- _ =>
          eapply (@runs_if _ b); [exact H | cbv iota]
      end
  end.

Ltac steps := repeat (cbv beta iota zeta; step).

Ltac object event :=
  destruct event as [| | | | | |?fields]; try discriminate.

Section Transcript.

Context {L : Library}.

(** The type of an event is compared with the five literals in turn. *)
Lemma type_tests (name : string) (b1 b2 b3 b4 b5 : bool) :
  map (py_eq_str (JStr (lit name))) known_types = [b1; b5; b2; b3; b4] ->
  py_eq_str (JStr (lit name)) (lit "session_start") = b1
  /\ py_eq_str (JStr (lit name)) (lit "user_input") = b2
  /\ py_eq_str (JStr (lit name)) (lit "tool_execute_start") = b3
  /\ py_eq_str (JStr (lit name)) (lit "tool_execute_end") = b4
  /\ py_eq_str (JStr (lit name)) (lit "session_end") = b5.
Proof.
  unfold known_types. cbn [map]. intros H. inversion H. repeat split.
Qed.

(** X10. A [session_start] event: the start time as formatted, the model
    and the interactive flag as the data give them, [Unknown] and [False]
    standing for a member that is absent (not for one that is null). *)
Theorem session_start_lines
  (event ts_str ts : json) (fields : list (pystr * json))
  (c : counters) (o : output) :
  field "ts" event = Some ts_str ->
  field "type" event = Some (JStr (lit "session_start")) ->
  field "data" event = Some (JDict fields) ->
  format_timestamp ts_str = Ok ts ->
  runs (analyze_event event c) o c
    [lit "  ⏰ Started: " ++ py_str ts;
     lit "  🤖 Model: "
     ++ py_str (member_or "model_id" (JStr (lit "Unknown")) fields);
     lit "  💬 Interactive: "
     ++ py_str (member_or "interactive" (JBool false) fields)].
Proof.
  intros Hts Htype Hdata Hformat. object event.
  unfold field in Hts, Htype, Hdata.
  destruct (@type_tests "session_start" true false false false false
              ltac:(vm_compute; reflexivity)) as (E1 & _).
  unfold member_or.
  destruct (lookup (lit "model_id") fields) eqn:Hmodel;
    destruct (lookup (lit "interactive") fields) eqn:Hinter;
    (eassert (Hrun : runs (analyze_event (JDict fields0) c) o c _);
     [unfold analyze_event, getitem; steps | exact Hrun]).
Qed.

(** X11. A [session_end] event needs no [data]; its time stamp is printed
    as formatted when the library parses it, and as it was written when
    it does not, without any error line. *)
Theorem session_end_line
  (event : json) (s : pystr) (c : counters) (o : output) :
  field "ts" event = Some (JStr s) ->
  field "type" event = Some (JStr (lit "session_end")) ->
  (forall e,
      fromisoformat (replace_char 90%N (lit "+00:00") s) = Raise e ->
      runs (analyze_event event c) o c [lit "  🔚 Ended: " ++ s])
  /\ (forall dt text,
        fromisoformat (replace_char 90%N (lit "+00:00") s) = Ok dt ->
        strftime_ymd_hms dt = Ok text ->
        runs (analyze_event event c) o c [lit "  🔚 Ended: " ++ text]).
Proof.
  intros Hts Htype. object event. unfold field in Hts, Htype.
  destruct (@type_tests "session_end" false false false false true
              ltac:(vm_compute; reflexivity)) as (E1 & E2 & E3 & E4 & E5).
  assert (Hline : forall shown,
             format_timestamp (JStr s) = Ok (JStr shown) ->
             runs (analyze_event (JDict fields) c) o c
               [lit "  🔚 Ended: " ++ shown]).
  { intros shown Hformat.
    eassert (Hrun : runs (analyze_event (JDict fields) c) o c _);
      [unfold analyze_event, getitem; steps | exact Hrun]. }
  split.
  - intros e Hparse. apply Hline.
    unfold format_timestamp. cbn [py_replace_Z bind_result].
    now rewrite Hparse.
  - intros dt text Hparse Hformat. apply Hline.
    unfold format_timestamp. cbn [py_replace_Z bind_result].
    rewrite Hparse. cbn [from_library bind_result]. now rewrite Hformat.
Qed.

(** X12. A [tool_execute_end] event: the status line, with the check mark
    for the status [success] and the cross for any other; then the output,
    when there is one, as it is up to 200 characters and cut to its first
    200 characters followed by three dots beyond; then the duration, when
    there is one.  The counters stay as they are. *)
Theorem tool_end_lines
  (event ts_str status : json) (fields : list (pystr * json))
  (printed : option pystr) (c : counters) (o : output) :
  field "ts" event = Some ts_str ->
  field "type" event = Some (JStr (lit "tool_execute_end")) ->
  field "data" event = Some (JDict fields) ->
  lookup (lit "status") fields = Some status ->
  lookup (lit "output") fields = option_map JStr printed ->
  runs (analyze_event event c) o c
    ([finished_line status] ++ output_lines printed
     ++ duration_lines (lookup (lit "duration_ms") fields)).
Proof.
  intros Hts Htype Hdata Hstatus Houtput. object event.
  unfold field in Hts, Htype, Hdata.
  destruct (format_timestamp_total ts_str) as [ts Hformat].
  destruct (@type_tests "tool_execute_end" false false false true false
              ltac:(vm_compute; reflexivity)) as (E1 & E2 & E3 & E4 & E5).
  unfold finished_line, output_lines, duration_lines.
  destruct (lookup (lit "duration_ms") fields) as [duration|] eqn:Hduration;
    (destruct printed as [text|]; cbn [option_map] in Houtput;
     [ destruct (200 <? length text) eqn:Hlong;
       [ assert (Hleb : (length text <=? 200) = false)
           by (apply Nat.ltb_lt in Hlong; apply Nat.leb_gt; exact Hlong)
       | assert (Hleb : (length text <=? 200) = true)
           by (apply Nat.ltb_ge in Hlong; apply Nat.leb_le; exact Hlong) ];
       rewrite Hleb
     | ]);
    (eassert (Hrun : runs (analyze_event (JDict fields0) c) o c _);
     [ unfold analyze_event, print_tool_execution, getitem; steps
     | exact Hrun ]).
Qed.

(** X13. A [tool_execute_start] event: the line of the tool, then the line
    of the MCP server exactly when the event is counted as an MCP
    invocation; the tool counter goes up by one. *)
Theorem tool_start_lines
  (event ts_str tool_name : json) (fields : list (pystr * json))
  (c : counters) (o : output) :
  field "ts" event = Some ts_str ->
  field "type" event = Some (JStr (lit "tool_execute_start")) ->
  field "data" event = Some (JDict fields) ->
  lookup (lit "tool_name") fields = Some tool_name ->
  runs (analyze_event event c) o
    (Counters (tool_count c + 1)
       (if py_truthy (member_or "mcp_server" JNull fields)
        then mcp_tool_count c + 1 else mcp_tool_count c))
    ([lit "  🔧 Started: " ++ py_str tool_name] ++ server_lines fields).
Proof.
  intros Hts Htype Hdata Hname. object event.
  unfold field in Hts, Htype, Hdata.
  destruct (format_timestamp_total ts_str) as [ts Hformat].
  destruct (@type_tests "tool_execute_start" false false true false false
              ltac:(vm_compute; reflexivity)) as (E1 & E2 & E3 & E4 & E5).
  unfold server_lines, member_or.
  destruct (lookup (lit "mcp_server") fields) as [server|] eqn:Hserver;
    [destruct (py_truthy server) eqn:Htruthy|];
    (eassert (Hrun : runs (analyze_event (JDict fields0) c) o _ _);
     [ unfold analyze_event, print_tool_execution, getitem; steps
     | cbn [py_truthy] in Hrun |- *;
       try rewrite Htruthy in Hrun; try rewrite Htruthy; exact Hrun ]).
Qed.

Lemma count_le (p q : json -> bool) (events : list json) :
  (forall event, p event = true -> q event = true) ->
  count p events <= count q events.
Proof.
  intros Hpq. induction events as [|event events IH]; [apply Nat.le_refl|].
  rewrite !count_cons. specialize (Hpq event).
  destruct (p event), (q event); lia.
Qed.

(** X14. The loop keeps the MCP counter at or below the tool counter,
    so in the footer of a session that is rendered to its end the MCP
    count never exceeds the tool count. *)
Theorem mcp_count_is_bounded :
  (forall events c c' o o',
      analyze_events events c o = (Ok c', o') ->
      mcp_tool_count c <= tool_count c ->
      mcp_tool_count c' <= tool_count c')
  /\ (forall sf o o',
        snd (try_load sf) <> [] ->
        analyze_session sf o = (Ok tt, o') ->
        exists transcript tools mcp,
          stdout o' = transcript ++ [footer (Counters tools mcp)]
          /\ mcp <= tools).
Proof.
  assert (Hle : forall events,
             count_mcp_starts events <= count_tool_starts events).
  { intros events. apply count_le. intros event H.
    apply andb_true_iff in H. tauto. }
  split.
  - intros events c c' o o' Hloop Hbefore.
    apply analyze_events_counters in Hloop. destruct Hloop as [-> ->].
    specialize (Hle events). lia.
  - intros sf o o' Hevents H. unfold analyze_session in H.
    apply bind_Ok in H. destruct H as (events & o1 & Hload & H).
    rewrite load_session_events_eq in Hload. inversion Hload; subst.
    clear Hload.
    destruct (snd (try_load sf)) as [|first rest] eqn:Eevents;
      [now destruct Hevents|].
    apply bind_Ok in H. destruct H as (session_id & o2 & _ & H).
    apply bind_Ok in H. destruct H as ([] & o3 & _ & H).
    apply bind_Ok in H. destruct H as ([] & o4 & _ & H).
    apply bind_Ok in H. destruct H as (c & o5 & Hloop & H).
    apply analyze_events_counters in Hloop.
    cbn [tool_count mcp_tool_count] in Hloop. destruct Hloop as [Ht Hm].
    unfold print in H. inversion H; subst. cbn [stdout].
    exists (stdout o5), (tool_count c), (mcp_tool_count c).
    split; [now destruct c|].
    rewrite Ht, Hm. cbn [Nat.add]. apply Hle.
Qed.

(** X15. What [format_timestamp] hands to the parser holds no [Z]: every
    [Z] of the time stamp, not only a final one, is replaced by [+00:00];
    a time stamp without [Z] is handed over as it is. *)
Theorem replacement_leaves_no_zulu (s : pystr) :
  (forall t, py_replace_Z (JStr s) = Ok t -> ~ In 90%N t)
  /\ (py_replace_Z (JStr s) = Ok s <-> ~ In 90%N s).
Proof.
  assert (Hnone : ~ In 90%N (replace_char 90%N (lit "+00:00") s)).
  { unfold replace_char. induction s as [|c s IH]; [intros []|].
    cbn [flat_map]. intros Hin. apply in_app_or in Hin.
    destruct Hin as [Hin|Hin]; [|exact (IH Hin)].
    destruct (N.eqb_spec c 90) as [->|Hne].
    - vm_compute in Hin.
      repeat (destruct Hin as [Hin|Hin]; [discriminate Hin|]). exact Hin.
    - destruct Hin as [Hin|[]]. congruence. }
  cbn [py_replace_Z]. split.
  - intros t Ht. inversion Ht; subst. exact Hnone.
  - split.
    + intros Hsame. injection Hsame as Heq.
      rewrite Heq in Hnone. exact Hnone.
    + intros Hno. now rewrite replace_char_absent.
Qed.

Lemma runs_anywhere {A} (m : M A) (o o' : output) (a : A)
  (lines : list pystr) :
  uniform m -> runs m o a lines -> runs m o' a lines.
Proof.
  intros (r & lines' & H) Hrun. unfold runs in *.
  rewrite H in Hrun. inversion Hrun as [[Hr Hlines]].
  apply app_inv_head in Hlines. rewrite H. now subst.
Qed.

(** X16. The transcript of a session whose events have what the renderer
    reads: the error line of the file if its loading failed, the two
    header lines with the [session_id] of the first event (whatever the
    later events say) and the name of the file, the lines of the events in
    order, and the footer. *)
Theorem session_transcript_shape
  (sf : session_file) (first : json) (rest : list json) (o : output) :
  snd (try_load sf) = first :: rest ->
  session_ok (first :: rest) = true ->
  exists session_id body c,
    field "session_id" first = Some session_id
    /\ runs (analyze_events (first :: rest) (Counters 0 0)) no_output c body
    /\ runs (analyze_session sf) o tt
         (error_lines sf ++ header_lines sf session_id ++ body
          ++ [footer c]).
Proof.
  intros Hevents Hok. cbn [session_ok] in Hok.
  apply andb_true_iff in Hok. destruct Hok as [Hid Hrender].
  unfold has_field in Hid.
  destruct (field "session_id" first) as [session_id|] eqn:Hsid;
    [|discriminate].
  destruct (events_ok_run (first :: rest) (Counters 0 0) no_output Hrender)
    as (c & body & Hbody).
  exists session_id, body, c. split; [reflexivity|]. split.
  - cbn [stdout no_output app] in Hbody. exact Hbody.
  - apply getitem_field in Hsid. unfold analyze_session.
    eapply runs_bind; [apply load_session_events_runs|].
    rewrite Hevents. unfold header_lines, getitem.
    change ([[10%N] ++ lit "📋 Session: " ++ py_str session_id;
             lit "📄 File: " ++ name sf] ++ body ++ [footer c])
      with ([] ++ [[10%N] ++ lit "📋 Session: " ++ py_str session_id]
            ++ [lit "📄 File: " ++ name sf] ++ body ++ [footer c]).
    eapply runs_bind; [apply runs_lift; exact Hsid|].
    eapply runs_bind; [apply runs_print|].
    eapply runs_bind; [apply runs_print|].
    eapply runs_bind; [|apply runs_print].
    eapply runs_anywhere; [apply uniform_analyze_events | exact Hbody].
Qed.

(** X17. A first event without [session_id] ends the session in an
    exception before any line of it is printed: a [KeyError] of that key
    when the event is an object, a [TypeError] when it is another JSON
    value (a number, a string, a list). *)
Theorem first_event_without_session_id
  (sf : session_file) (first : json) (rest : list json) (o : output) :
  snd (try_load sf) = first :: rest ->
  field "session_id" first = None ->
  exists e,
    raises (analyze_session sf) o e (error_lines sf)
    /\ (forall fields, first = JDict fields -> e = KeyError (lit "session_id"))
    /\ ((forall fields, first <> JDict fields) -> e = TypeError).
Proof.
  intros Hevents Hsid.
  pose proof (load_session_events_runs sf o) as Hload.
  unfold runs in Hload.
  assert (Hraise : forall e,
             py_getitem first (lit "session_id") = Raise e ->
             raises (analyze_session sf) o e (error_lines sf)).
  { intros e He. unfold raises, analyze_session, bind.
    rewrite Hload, Hevents. unfold getitem, lift. rewrite He. reflexivity. }
  destruct first as [| | | | | |fields];
    try (exists TypeError; split; [now apply Hraise|];
         split; [discriminate | reflexivity]).
  exists (KeyError (lit "session_id")). unfold field in Hsid. split.
  - apply Hraise. cbn [py_getitem]. now rewrite Hsid.
  - split; [reflexivity|]. intros Hnot. now destruct (Hnot fields).
Qed.

Tactic Notation "bound" hyp(H) ident(x) ident(Hx) :=
  apply bind_Ok in H;
  let o := fresh "o" in destruct H as (x & o & Hx & H).

Ltac lifted H := apply lift_Ok in H; destruct H as [H _].

Lemma getitem_object (v x : json) (key : pystr) :
  py_getitem v key = Ok x ->
  exists fields, v = JDict fields /\ lookup key fields = Some x.
Proof.
  destruct v; try discriminate. cbn [py_getitem].
  destruct (lookup key fields) eqn:Hl; [|discriminate].
  intros H. inversion H; subst. now exists fields.
Qed.

Lemma analyze_event_ok_inv
  (event : json) (c c' : counters) (o o' : output) :
  analyze_event event c o = (Ok c', o') -> event_ok event = true.
Proof.
  unfold analyze_event, getitem. intros H.
  bound H ts_str Hts. lifted Hts.
  bound H ts Hformat. clear Hformat.
  bound H event_type Htype. lifted Htype.
  apply getitem_object in Hts. destruct Hts as (fields & -> & Hts).
  cbn [py_getitem] in Htype.
  destruct (lookup (lit "type") fields) as [ty|] eqn:Hty; [|discriminate].
  inversion Htype; subst ty. clear Htype.
  unfold event_ok, field. rewrite Hts, Hty. unfold data_ok.
  destruct (py_eq_str event_type (lit "session_start")) eqn:E1.
  { bound H data Hdata. lifted Hdata. cbn [py_getitem] in Hdata.
    destruct (lookup (lit "data") fields) as [d|]; [|discriminate].
    inversion Hdata; subst d.
    bound H u Hprint. bound H model Hmodel. lifted Hmodel.
    destruct data; try discriminate. reflexivity. }
  destruct (py_eq_str event_type (lit "user_input")) eqn:E2.
  { bound H data Hdata. lifted Hdata. cbn [py_getitem] in Hdata.
    destruct (lookup (lit "data") fields) as [d|]; [|discriminate].
    inversion Hdata; subst d.
    bound H input Hinput. lifted Hinput.
    apply getitem_object in Hinput. destruct Hinput as (d & -> & Hinput).
    rewrite Hinput.
    bound H n Hlen. lifted Hlen. bound H shown Hcut.
    destruct input; try discriminate; cbn [py_len] in Hlen;
      inversion Hlen; subst n; cbn [input_ok]; [reflexivity| |];
      (destruct (100 <? _) eqn:Hlong in Hcut;
       [ unfold lift in Hcut; cbn in Hcut; discriminate
       | apply Nat.leb_le; apply Nat.ltb_ge in Hlong; exact Hlong ]). }
  destruct (py_eq_str event_type (lit "tool_execute_start")) eqn:E3.
  { bound H data0 Hdata0. clear Hdata0.
    bound H server Hserver. clear Hserver.
    bound H u Htool. clear H.
    unfold print_tool_execution, getitem in Htool.
    bound Htool data Hdata. lifted Hdata. cbn [py_getitem] in Hdata.
    destruct (lookup (lit "data") fields) as [d|]; [|discriminate].
    inversion Hdata; subst d.
    bound Htool ty Htype. lifted Htype. cbn [py_getitem] in Htype.
    rewrite Hty in Htype. inversion Htype; subst ty. rewrite E3 in Htool.
    bound Htool tool_name Hname. lifted Hname.
    apply getitem_object in Hname. destruct Hname as (d & -> & Hname).
    now rewrite Hname. }
  destruct (py_eq_str event_type (lit "tool_execute_end")) eqn:E4;
    [|reflexivity].
  bound H u Htool. clear H.
  unfold print_tool_execution, getitem in Htool.
  bound Htool data Hdata. lifted Hdata. cbn [py_getitem] in Hdata.
  destruct (lookup (lit "data") fields) as [d|]; [|discriminate].
  inversion Hdata; subst d.
  bound Htool ty Htype. lifted Htype. cbn [py_getitem] in Htype.
  rewrite Hty in Htype. inversion Htype; subst ty. rewrite E3 in Htool.
  bound Htool ty Htype'. lifted Htype'. cbn [py_getitem] in Htype'.
  rewrite Hty in Htype'. inversion Htype'; subst ty. rewrite E4 in Htool.
  bound Htool status Hstatus. lifted Hstatus.
  apply getitem_object in Hstatus. destruct Hstatus as (d & -> & Hstatus).
  rewrite Hstatus.
  bound Htool u' Hprint. bound Htool has_output Hhas. lifted Hhas.
  cbn [py_contains] in Hhas.
  bound Htool u'' Hout. clear Htool.
  destruct (lookup (lit "output") d) as [v|] eqn:Hv; [|reflexivity].
  inversion Hhas; subst has_output.
  bound Hout v' Hget. lifted Hget. cbn [py_getitem] in Hget.
  rewrite Hv in Hget. inversion Hget; subst v'.
  bound Hout n Hlen. lifted Hlen.
  destruct v; try discriminate; cbn [py_len] in Hlen; inversion Hlen;
    subst n; cbn [output_ok]; try reflexivity.
  destruct (200 <? _) eqn:Hlong in Hout.
  - bound Hout sliced Hslice. lifted Hslice. discriminate.
  - apply Nat.leb_le. apply Nat.ltb_ge in Hlong. exact Hlong.
Qed.

(** The operations of a loop turn on its event raise nothing exactly when
    the event has what the renderer reads. *)
Lemma analyze_event_outcome
  (event : json) (c : counters) (o : output) :
  (event_ok event = true <->
   exists c' lines, runs (analyze_event event c) o c' lines)
  /\ (event_ok event = false <->
      exists e lines, raises (analyze_event event c) o e lines).
Proof.
  destruct (uniform_analyze_event event c) as (r & lines & H).
  split; split.
  - apply event_ok_runs.
  - intros (c' & l & Hrun). exact (analyze_event_ok_inv _ _ _ Hrun).
  - intros Hnot. destruct r as [c'|e].
    + rewrite (analyze_event_ok_inv event c o (H o)) in Hnot. discriminate.
    + exists e, lines. exact (H o).
  - intros (e & l & Hraise). destruct (event_ok event) eqn:Hok; [|reflexivity].
    destruct (event_ok_runs event c o Hok) as (c' & l' & Hrun).
    unfold raises, runs in *. rewrite Hrun in Hraise. discriminate.
Qed.

(** X19. A [user_input] whose input is a list: of at most 100 items it is
    printed, of more than 100 items it raises a [TypeError] (the slice of
    a list cannot be joined to the three dots), with nothing printed for
    the event. *)
Theorem long_list_input_raises
  (event ts_str : json) (fields : list (pystr * json)) (items : list json)
  (c : counters) (o : output) :
  field "ts" event = Some ts_str ->
  field "type" event = Some (JStr (lit "user_input")) ->
  field "data" event = Some (JDict fields) ->
  lookup (lit "input") fields = Some (JList items) ->
  (length items <= 100 ->
   runs (analyze_event event c) o c
     [lit "  👤 Input: " ++ py_str (JList items)])
  /\ (100 < length items ->
      raises (analyze_event event c) o TypeError []).
Proof.
  intros Hts Htype Hdata Hinput. object event.
  unfold field in Hts, Htype, Hdata.
  destruct (format_timestamp_total ts_str) as [ts Hformat].
  destruct (@type_tests "user_input" false true false false false
              ltac:(vm_compute; reflexivity)) as (E1 & E2 & _).
  split; intros Hlen.
  - assert (Hlong : (100 <? length items) = false)
      by (apply Nat.ltb_ge; exact Hlen).
    eassert (Hrun : runs (analyze_event (JDict fields0) c) o c _);
      [unfold analyze_event, getitem; steps | exact Hrun].
  - assert (Hlong : (100 <? length items) = true)
      by (apply Nat.ltb_lt; exact Hlen).
    unfold raises, analyze_event, getitem, bind, lift.
    cbn [py_getitem]. rewrite Hts, Hformat, Htype, E1, E2, Hdata.
    cbn [py_getitem]. rewrite Hinput. cbn [py_len]. rewrite Hlong.
    cbn [py_slice_to bind_result py_add_str].
    rewrite app_nil_r. now destruct o.
Qed.

(** X20. Files of the same modification time are rendered in the order
    in which the directory lists them: the sort is stable, also across
    the cut after the fifth file. *)
Theorem ties_keep_enumeration_order (t : Z) (files : list session_file) :
  filter (fun sf => (st_mtime sf =? t)%Z)
    (rendered_files files ++ ignored_files files)
  = filter (fun sf => (st_mtime sf =? t)%Z) files.
Proof.
  unfold rendered_files, ignored_files. rewrite firstn_skipn.
  apply sort_by_mtime_desc_stable.
Qed.

End Transcript.

(** * The further properties at the sample files *)

Ltac computed := vm_compute; reflexivity.

Lemma find_audit_directory_takes_first_candidate_witness :
  find_audit_directory MoreSamples.environment_snap
  = Some MoreSamples.snap_directory.
Proof.
  apply (proj1 (proj2 (find_audit_directory_takes_first_candidate
                         MoreSamples.environment_snap))
           MoreSamples.snap_directory []).
  reflexivity.
Defined.

Lemma main_stops_early_without_sessions_witness :
  runs (main (L := Sample.library) MoreSamples.environment_bare) no_output tt
    [lit "❌ No audit directory found"]
  /\ runs (main (L := Sample.library) MoreSamples.environment_notes)
       no_output tt
       [lit "📁 Audit directory: " ++ dir_path MoreSamples.notes_directory;
        lit "❌ No session files found"].
Proof.
  split.
  - apply (proj1 (@main_stops_early_without_sessions Sample.library
                    MoreSamples.environment_bare no_output)).
    reflexivity.
  - apply (proj2 (@main_stops_early_without_sessions Sample.library
                    MoreSamples.environment_notes no_output)
             MoreSamples.notes_directory).
    + reflexivity.
    + intros sf middle Hin Hname.
      assert (Hmatch : matches_session_glob (name sf) = true)
        by (apply matches_session_glob_iff; now exists middle).
      clear Hname.
      destruct Hin as [<-|[<-|[]]]; vm_compute in Hmatch; discriminate.
Defined.



Lemma blank_file_prints_nothing_witness :
  analyze_session (L := Sample.library) MoreSamples.session_blank no_output
  = (Ok tt, no_output).
Proof.
  apply (@blank_file_prints_nothing Sample.library
           MoreSamples.session_blank
           [Sample.line_blank; [10%N]; lit "	 "]).
  - reflexivity.
  - repeat (apply Forall_cons;
            [apply strip_blank_iff; computed|]).
    apply Forall_nil.
Defined.

Lemma a_raise_ends_the_loop_witness :
  raises (for_each
            ([Sample.session_complete]
             ++ Sample.session_hollow :: [Sample.session_cut])
            (analyze_session (L := Sample.library)))
    no_output (KeyError (lit "session_id"))
    (concat (map (transcript (L := Sample.library))
               [Sample.session_complete])
     ++ transcript (L := Sample.library) Sample.session_hollow).
Proof.
  apply (@a_raise_ends_the_loop Sample.library [Sample.session_complete]).
  - intros sf [<-|[]]. computed.
  - computed.
Defined.

Lemma session_start_lines_witness :
  runs (analyze_event (L := Sample.library) MoreSamples.event_start_bare
          (Counters 0 0))
    no_output (Counters 0 0)
    [lit "  ⏰ Started: " ++ py_str (L := Sample.library)
                               (JStr (lit "2024-01-15 10:30:00"));
     lit "  🤖 Model: "
     ++ py_str (L := Sample.library)
          (member_or "model_id" (JStr (lit "Unknown"))
             [(lit "model_id", JNull)]);
     lit "  💬 Interactive: "
     ++ py_str (L := Sample.library)
          (member_or "interactive" (JBool false)
             [(lit "model_id", JNull)])].
Proof.
  apply (@session_start_lines Sample.library MoreSamples.event_start_bare
           (Sample.str "2024-01-15T10:30:00Z")); computed.
Defined.

Example session_start_defaults :
  py_str (L := Sample.library)
    (member_or "model_id" (JStr (lit "Unknown")) [(lit "model_id", JNull)])
  = lit "None"
  /\ py_str (L := Sample.library)
       (member_or "interactive" (JBool false) [(lit "model_id", JNull)])
     = lit "False"
  /\ py_str (L := Sample.library)
       (member_or "model_id" (JStr (lit "Unknown")) [])
     = lit "Unknown".
Proof. vm_compute. repeat split. Qed.

Lemma session_end_line_witness :
  runs (analyze_event (L := Sample.library) MoreSamples.event_end_soon
          (Counters 0 0))
    no_output (Counters 0 0) [lit "  🔚 Ended: " ++ lit "soon"].
Proof.
  apply (proj1 (@session_end_line Sample.library MoreSamples.event_end_soon
                  (lit "soon") (Counters 0 0) no_output
                  ltac:(computed) ltac:(computed))
           (LibExn (lit "Invalid isoformat string: 'soon'"))).
  computed.
Defined.

Lemma tool_end_lines_witness :
  runs (analyze_event (L := Sample.library) (MoreSamples.end_with_output 201)
          (Counters 0 0))
    no_output (Counters 0 0)
    ([finished_line (L := Sample.library) (Sample.str "failed")]
     ++ output_lines (Some (repeat 120%N 201))
     ++ duration_lines (L := Sample.library)
          (lookup (lit "duration_ms")
             [(lit "status", Sample.str "failed");
              (lit "output", JStr (repeat 120%N 201))])).
Proof.
  apply (@tool_end_lines Sample.library (MoreSamples.end_with_output 201)
           (Sample.str "2024-01-15T10:30:09Z")); computed.
Defined.

Example tool_end_lines_cut :
  [finished_line (L := Sample.library) (Sample.str "failed")]
  ++ output_lines (Some (repeat 120%N 201))
  = [lit "  ❌ Finished: failed";
     lit "      Output: " ++ repeat 120%N 200 ++ lit "..."]
  /\ output_lines (Some (repeat 120%N 200))
     = [lit "      Output: " ++ repeat 120%N 200].
Proof. vm_compute. split; reflexivity. Qed.

Lemma tool_start_lines_witness :
  runs (analyze_event (L := Sample.library) Sample.event_tool_mcp
          (Counters 1 0))
    no_output
    (Counters (tool_count (Counters 1 0) + 1)
       (if py_truthy
             (member_or "mcp_server" JNull
                [(lit "tool_name", Sample.str "search");
                 (lit "mcp_server", Sample.str "docs")])
        then mcp_tool_count (Counters 1 0) + 1
        else mcp_tool_count (Counters 1 0)))
    ([lit "  🔧 Started: " ++ py_str (L := Sample.library)
                                (Sample.str "search")]
     ++ server_lines (L := Sample.library)
          [(lit "tool_name", Sample.str "search");
           (lit "mcp_server", Sample.str "docs")]).
Proof.
  apply (@tool_start_lines Sample.library Sample.event_tool_mcp
           (Sample.str "2024-01-15T10:30:07Z")); computed.
Defined.

Example tool_start_lines_with_server :
  [lit "  🔧 Started: " ++ py_str (L := Sample.library)
                              (Sample.str "search")]
  ++ server_lines (L := Sample.library)
       [(lit "tool_name", Sample.str "search");
        (lit "mcp_server", Sample.str "docs")]
  = [lit "  🔧 Started: search"; lit "      Server: docs"]
  /\ server_lines (L := Sample.library)
       [(lit "tool_name", Sample.str "grep"); (lit "mcp_server", JNull)]
     = [].
Proof. vm_compute. split; reflexivity. Qed.

Lemma replacement_leaves_no_zulu_witness :
  py_replace_Z (JStr (lit "2024-01-15T10:30:00"))
  = Ok (lit "2024-01-15T10:30:00").
Proof.
  apply (proj2 (replacement_leaves_no_zulu (lit "2024-01-15T10:30:00"))).
  vm_compute. intros H.
  repeat (destruct H as [H|H]; [discriminate H|]). exact H.
Defined.

Lemma session_transcript_shape_witness :
  exists session_id body c,
    field "session_id" Sample.event_start = Some session_id
    /\ runs (analyze_events (L := Sample.library)
               [Sample.event_start; Sample.event_input] (Counters 0 0))
         no_output c body
    /\ runs (analyze_session (L := Sample.library) Sample.session_cut)
         no_output tt
         (error_lines (L := Sample.library) Sample.session_cut
          ++ header_lines (L := Sample.library) Sample.session_cut session_id
          ++ body ++ [footer c]).
Proof.
  apply (@session_transcript_shape Sample.library Sample.session_cut);
    computed.
Defined.

Lemma first_event_without_session_id_witness :
  exists e,
    raises (analyze_session (L := Sample.library) Sample.session_hollow)
      no_output e (error_lines (L := Sample.library) Sample.session_hollow)
    /\ e = KeyError (lit "session_id").
Proof.
  destruct (@first_event_without_session_id Sample.library
              Sample.session_hollow (JDict []) [] no_output
              ltac:(computed) ltac:(computed))
    as (e & Hraise & Hkey & _).
  exists e. split; [exact Hraise | exact (Hkey [] eq_refl)].
Defined.

Lemma long_list_input_raises_witness :
  runs (analyze_event (L := Sample.library) (MoreSamples.input_list 100)
          (Counters 0 0))
    no_output (Counters 0 0)
    [lit "  👤 Input: "
     ++ py_str (L := Sample.library) (JList (repeat (JInt 0) 100))]
  /\ raises (analyze_event (L := Sample.library)
               (MoreSamples.input_list 101) (Counters 0 0))
       no_output TypeError [].
Proof.
  split.
  - apply (proj1 (@long_list_input_raises Sample.library
                    (MoreSamples.input_list 100)
                    (Sample.str "2024-01-15T10:30:05Z")
                    [(lit "input", JList (repeat (JInt 0) 100))]
                    (repeat (JInt 0) 100) (Counters 0 0) no_output
                    ltac:(computed) ltac:(computed) ltac:(computed)
                    ltac:(computed))).
    vm_compute. lia.
  - apply (proj2 (@long_list_input_raises Sample.library
                    (MoreSamples.input_list 101)
                    (Sample.str "2024-01-15T10:30:05Z")
                    [(lit "input", JList (repeat (JInt 0) 101))]
                    (repeat (JInt 0) 101) (Counters 0 0) no_output
                    ltac:(computed) ltac:(computed) ltac:(computed)
                    ltac:(computed))).
    vm_compute. lia.
Defined.

Example tied_sessions_in_order :
  map name (rendered_files MoreSamples.tied_sessions)
  = map lit ["session-new.jsonl"; "session-tie-1.jsonl";
             "session-tie-2.jsonl"; "session-old.jsonl"].
Proof. vm_compute. reflexivity. Qed.

(** * The viewer in the process *)

Section Simulation.

Context {L : Library} {S : System}.

Lemma refused_none (lines : list pystr) :
  refused lines = None <-> encodable lines.
Proof.
  unfold encodable. induction lines as [|s lines IH]; cbn [refused].
  - split; [constructor | reflexivity].
  - destruct (encodes s) eqn:Hs.
    + rewrite IH. split; intros H; [now constructor | now inversion H].
    + split; [discriminate|]. intros H.
      inversion H as [|? ? Hhead _]. cbv beta in Hhead.
      rewrite Hs in Hhead. discriminate.
Qed.

Lemma accepted_all (lines : list pystr) :
  refused lines = None -> accepted lines = lines.
Proof.
  induction lines as [|s lines IH]; cbn [refused accepted];
    [reflexivity|].
  destruct (encodes s); [|discriminate]. intros H. now rewrite IH.
Qed.

Lemma refused_app (l1 l2 : list pystr) :
  refused (l1 ++ l2)
  = match refused l1 with
    | Some s => Some s
    | None => refused l2
    end.
Proof.
  induction l1 as [|s l1 IH]; cbn [app refused]; [reflexivity|].
  now destruct (encodes s).
Qed.

Lemma accepted_app (l1 l2 : list pystr) :
  accepted (l1 ++ l2)
  = match refused l1 with
    | Some _ => accepted l1
    | None => l1 ++ accepted l2
    end.
Proof.
  induction l1 as [|s l1 IH]; cbn [app refused accepted]; [reflexivity|].
  destruct (encodes s); [|reflexivity].
  rewrite IH. now destruct (refused l1).
Qed.

Lemma simulates_ret {A} (a : A) : simulates (ret a) (ret a).
Proof.
  exists (Ok a), []. split; intros o; unfold ret; cbn;
    rewrite app_nil_r; now destruct o.
Qed.

Lemma simulates_lift {A} (r : result A) : simulates (lift r) (lift r).
Proof.
  exists r, []. split; intros o; unfold lift; cbn;
    rewrite app_nil_r; now destruct o.
Qed.

Lemma simulates_print (s : pystr) : simulates (Io.print s) (print s).
Proof.
  exists (Ok tt), [s]. split; intros o; [reflexivity|].
  unfold Io.print, on_terminal. cbn [refused accepted].
  destruct (encodes s); [reflexivity|].
  rewrite app_nil_r. now destruct o.
Qed.

Lemma simulates_bind {A B} (m' m : M A) (k' k : A -> M B) :
  simulates m' m -> (forall a, simulates (k' a) (k a)) ->
  simulates (bind m' k') (bind m k).
Proof.
  intros (r1 & l1 & Hm & Hm') Hk. destruct r1 as [a|e].
  - destruct (Hk a) as (r2 & l2 & Hka & Hka').
    exists r2, (l1 ++ l2). split; intros o; unfold bind.
    + rewrite Hm, Hka. cbn [stdout stderr]. now rewrite app_assoc.
    + rewrite Hm'. unfold on_terminal. rewrite refused_app, accepted_app.
      destruct (refused l1) as [s|] eqn:Hl1; [reflexivity|].
      rewrite (accepted_all _ Hl1), Hka'. cbn [stdout stderr].
      unfold on_terminal. now rewrite app_assoc.
  - exists (Raise e), l1. split; intros o; unfold bind.
    + now rewrite Hm.
    + rewrite Hm'. unfold on_terminal. now destruct (refused l1).
Qed.

Lemma simulates_if {A} (b : bool) (m1' m1 m2' m2 : M A) :
  simulates m1' m1 -> simulates m2' m2 ->
  simulates (if b then m1' else m2') (if b then m1 else m2).
Proof. now destruct b. Qed.

Ltac simulation :=
  repeat (cbv beta zeta;
          lazymatch goal with
          | |- simulates (ret _) (ret _) => apply simulates_ret
          | |- simulates (lift _) (lift _) => apply simulates_lift
          | |- simulates (getitem _ _) (getitem _ _) => apply simulates_lift
          | |- simulates (Io.print _) (print _) => apply simulates_print
          | |- simulates (bind _ _) (bind _ _) =>
              apply simulates_bind; [|intros ?]
          | |- simulates (if _ then _ else _) (if _ then _ else _) =>
              apply simulates_if
          end).

Lemma simulates_print_tool_execution (event : json) :
  simulates (Io.print_tool_execution event) (print_tool_execution event).
Proof. unfold Io.print_tool_execution, print_tool_execution. simulation. Qed.

Lemma simulates_analyze_event (event : json) (c : counters) :
  simulates (Io.analyze_event event c) (analyze_event event c).
Proof.
  unfold Io.analyze_event, analyze_event.
  simulation; apply simulates_print_tool_execution.
Qed.

Lemma simulates_analyze_events (events : list json) :
  forall c, simulates (Io.analyze_events events c) (analyze_events events c).
Proof.
  induction events as [|event events IH]; intros c;
    cbn [Io.analyze_events analyze_events].
  - apply simulates_ret.
  - apply simulates_bind; [apply simulates_analyze_event | intros c'; apply IH].
Qed.

Lemma simulates_load_session_events (sf : session_file) :
  simulates (Io.load_session_events sf) (load_session_events sf).
Proof.
  unfold Io.load_session_events, load_session_events.
  destruct (try_load sf) as [[[]|e] events]; simulation.
Qed.

Lemma simulates_analyze_session (sf : session_file) :
  simulates (Io.analyze_session sf) (analyze_session sf).
Proof.
  unfold Io.analyze_session, analyze_session.
  apply simulates_bind; [apply simulates_load_session_events|].
  intros [|first rest]; [apply simulates_ret|].
  simulation. apply simulates_analyze_events.
Qed.

Lemma simulates_for_each (files : list session_file) :
  simulates (for_each files Io.analyze_session)
    (for_each files analyze_session).
Proof.
  induction files as [|sf files IH]; cbn [for_each].
  - apply simulates_ret.
  - apply simulates_bind; [apply simulates_analyze_session | intros _; exact IH].
Qed.

Lemma sort_keys_ok (files : list session_file) :
  Io.sort_keys files = Ok tt
  <-> forall sf, In sf files -> stat_error sf = None.
Proof.
  induction files as [|x files IH]; cbn [Io.sort_keys].
  - split; [intros _ sf [] | reflexivity].
  - destruct (stat_error x) eqn:Hx.
    + split; [discriminate|]. intros H.
      rewrite (H x (or_introl eq_refl)) in Hx. discriminate.
    + rewrite IH. split.
      * intros H sf [<-|Hin]; [exact Hx | now apply H].
      * intros H sf Hin. apply H. now right.
Qed.

(** When every [stat] of the sort succeeds, [main] does in the process
    what it does above, up to the first line that cannot be encoded. *)
Lemma simulates_main (env : environment) :
  (forall audit_dir sf,
      find_audit_directory env = Some audit_dir ->
      In sf (glob_session_files audit_dir) -> stat_error sf = None) ->
  simulates (Io.main env) (main env).
Proof.
  intros Hstat. unfold Io.main, main.
  destruct (find_audit_directory env) as [audit_dir|];
    [|apply simulates_print].
  specialize (Hstat audit_dir).
  destruct (glob_session_files audit_dir) as [|sf files].
  - simulation.
  - assert (Hkeys : Io.sort_keys (sf :: files) = Ok tt)
      by (apply sort_keys_ok; intros x Hx; now apply Hstat).
    rewrite Hkeys.
    apply simulates_bind; [apply simulates_print|]. intros _.
    assert (Hskip : forall (m' m : M unit),
               simulates m' m -> simulates (lift (Ok tt) ;; m') m).
    { intros m' m (r & lines & Hm & Hm'). exists r, lines.
      split; [exact Hm|]. intros o. unfold bind, lift. apply Hm'. }
    apply Hskip. simulation. apply simulates_for_each.
Qed.



(** X18. One turn of the event loop ends without an exception exactly
    when the event has what the renderer reads ([event_ok]) and standard
    output can encode the lines of the turn; any other event raises out
    of the loop. *)
Theorem event_renders_exactly_when_ok
  (event : json) (c : counters) (o : output) :
  (exists c' lines, runs (Io.analyze_event event c) o c' lines)
  <-> event_ok event = true /\ encodable (turn_texts event c).
Proof.
  destruct (simulates_analyze_event event c) as (r & lines & Hm & Hm').
  assert (Hlines : turn_texts event c = lines).
  { unfold turn_texts. rewrite (Hm no_output). reflexivity. }
  rewrite Hlines, <- refused_none. unfold runs. split.
  - intros (c' & l & Hrun). rewrite Hm' in Hrun. unfold on_terminal in Hrun.
    destruct (refused lines); [discriminate|].
    split; [|reflexivity].
    destruct r as [c1|e]; [|discriminate].
    exact (analyze_event_ok_inv event c no_output (Hm no_output)).
  - intros [Hok Hnone].
    destruct (event_ok_runs event c o Hok) as (c1 & l1 & Hrun).
    unfold runs in Hrun. rewrite Hm in Hrun.
    destruct r as [cr|e]; [|discriminate].
    exists cr, lines. rewrite Hm'. unfold on_terminal.
    now rewrite Hnone, (accepted_all _ Hnone).
Qed.


(** X22. A text that standard output cannot encode ends the run with the
    error of [print] at that text: the lines handed to [print] before it
    are printed, the text and what would follow are not. *)
Theorem unencodable_line_ends_the_run
  (env : environment) (r : result unit) (before after : list pystr)
  (s : pystr) (o : output) :
  (forall audit_dir sf,
      find_audit_directory env = Some audit_dir ->
      In sf (glob_session_files audit_dir) -> stat_error sf = None) ->
  main env no_output = (r, Output (before ++ s :: after) []) ->
  encodable before ->
  encodes s = false ->
  raises (Io.main env) o (LibraryError (encode_error s)) before.
Proof.
  intros Hstat Hmain Hbefore Hs.
  destruct (simulates_main env Hstat) as (r' & lines & Hm & Hm').
  rewrite (Hm no_output) in Hmain. cbn [stdout stderr no_output app] in Hmain.
  injection Hmain as _ Hlines. subst lines.
  apply refused_none in Hbefore.
  unfold raises. rewrite Hm'. unfold on_terminal.
  rewrite refused_app, accepted_app, Hbefore. cbn [refused accepted].
  rewrite Hs, app_nil_r. reflexivity.
Qed.

End Simulation.



Example dangling_link_raises :
  Io.main (L := Sample.library) (S := SampleSystem.system)
    SampleSystem.environment_gone no_output
  = (Raise (LibraryError SampleSystem.gone_error),
     Output
       [lit "📁 Audit directory: /home/dev/.local/share/amazon-q-cli/audit"]
       [])
  /\ fst (main (L := Sample.library) SampleSystem.environment_gone no_output)
     = Ok tt.
Proof. vm_compute. split; reflexivity. Qed.

(** A directory whose one session holds a start and an input that ends in
    a lone surrogate. *)
Example lone_surrogate_raises_in_print :
  event_ok SampleSystem.event_lone_surrogate = true
  /\ fst (analyze_event (L := Sample.library)
            SampleSystem.event_lone_surrogate (Counters 0 0) no_output)
     = Ok (Counters 0 0)
  /\ Io.analyze_event (L := Sample.library) (S := SampleSystem.system)
       SampleSystem.event_lone_surrogate (Counters 0 0) no_output
     = (Raise (LibraryError SampleSystem.surrogate_error), no_output).
Proof. vm_compute. repeat split. Qed.

Example surrogate_error_text :
  SampleSystem.utf8_encode_error (lit "  👤 Input: " ++ [55357%N])
  = SampleSystem.surrogate_error.
Proof. vm_compute. reflexivity. Qed.

Lemma unencodable_line_ends_the_run_witness :
  raises (Io.main (L := Sample.library) (S := SampleSystem.system)
            SampleSystem.environment_odd_name)
    no_output
    (LibraryError
       (encode_error (System := SampleSystem.system)
          (lit "📄 File: " ++ name SampleSystem.session_odd_name)))
    (firstn 3 (printed_texts (L := Sample.library)
                 SampleSystem.environment_odd_name)).
Proof.
  apply (@unencodable_line_ends_the_run Sample.library SampleSystem.system
           SampleSystem.environment_odd_name (Ok tt)
           (firstn 3 (printed_texts (L := Sample.library)
                        SampleSystem.environment_odd_name))
           (skipn 4 (printed_texts (L := Sample.library)
                       SampleSystem.environment_odd_name))).
  - intros audit_dir sf Hfind Hin.
    unfold find_audit_directory, SampleSystem.environment_odd_name in Hfind.
    cbn [snap_matches standard_dir] in Hfind. injection Hfind as <-.
    vm_compute in Hin. destruct Hin as [<-|[]]. vm_compute. reflexivity.
  - vm_compute. reflexivity.
  - unfold encodable. apply Forall_forall. apply forallb_forall.
    vm_compute. reflexivity.
  - vm_compute. reflexivity.
Defined.

Example odd_name_raises_at_the_file_line :
  Io.main (L := Sample.library) (S := SampleSystem.system)
    SampleSystem.environment_odd_name no_output
  = (Raise (LibraryError
              (LibExn (lit "'utf-8' codec can't encode character '\udcff' in position 16: surrogates not allowed"))),
     Output
       [lit "📁 Audit directory: /home/dev/.local/share/amazon-q-cli/audit";
        lit "📊 Found 1 session files";
        [10%N] ++ lit "📋 Session: s-1"] []).
Proof. vm_compute. reflexivity. Qed.
